(** * pg_dump_restore.py: a shallow embedding

    The script fetches a base64+gzip PostgreSQL dump over HTTP, decodes it,
    reads the server version out of the dump text, starts a throw-away
    PostgreSQL container of that version, restores the dump, runs one fixed
    query and posts the answer back.

    Python text ([str]) is a sequence of Unicode code points, Python [bytes]
    a sequence of octets.  Calls that leave the process (HTTP, docker,
    subprocess, psycopg2) are answered by a [World]; every call and every
    log record is appended to a trace. *)

From Stdlib Require Import NArith ZArith List String Ascii Bool Lia Permutation.
From Stdlib.Strings Require Import Byte.
From Stdlib Require Import DecimalString.
Import ListNotations.

Set Implicit Arguments.

(** ** Text and bytes *)

Definition codepoint := N.
Definition pystr := list codepoint.
Definition pybytes := list byte.

(** An ASCII literal of the source as Python text. *)
Definition py (s : string) : pystr := map N_of_ascii (list_ascii_of_string s).
Arguments py s%_string.

Fixpoint pystr_eqb (a b : pystr) : bool :=
  match a, b with
  | [], [] => true
  | x :: a', y :: b' => N.eqb x y && pystr_eqb a' b'
  | _, _ => false
  end.

(** ** Exceptions and results

    The exception classes the script can meet.  [SystemExit] is what
    [sys.exit] raises; it derives from [BaseException] only, so a handler for
    [Exception] lets it through. *)

Inductive exn : Type :=
| SystemExit (code : Z)
| NameError (name : string)
| UnboundLocalError (name : string)
| IndexError
| KeyError (key : pystr)
| TypeError
| ValueError
| UnicodeEncodeError
| UnicodeDecodeError
| binascii_Error (msg : string)
| zlib_error (msg : string)
| JSONDecodeError (msg : pystr)
| CalledProcessError (msg : pystr)
| LibraryError (cls : string) (msg : pystr).

(** [isinstance(e, Exception)]. *)
Definition is_Exception (e : exn) : bool :=
  match e with SystemExit _ => false | _ => true end.

(** The value of a library call that touches no outside state. *)
Inductive result (A : Type) : Type :=
| Ok (a : A)
| Err (e : exn).
Arguments Err {A} e.

Definition rbind {A B} (r : result A) (k : A -> result B) : result B :=
  match r with Ok a => k a | Err e => Err e end.

Declare Scope result_scope.
Delimit Scope result_scope with result.
Notation "x <- c ;; k" := (rbind c (fun x => k))
  (at level 61, c at next level, right associativity) : result_scope.
Notation "' p <- c ;; k" := (rbind c (fun x => match x with p => k end))
  (at level 61, p pattern, c at next level, right associativity) : result_scope.

(** The octet with value [n mod 256]. *)
Definition nbyte (n : N) : byte :=
  match Byte.of_N (n mod 256) with Some b => b | None => x00 end.

(** ** base64.b64decode *)

Module Base64.

(** [table_a2b_base64]: the value of an alphabet character. *)
Definition a2b (c : N) : option N :=
  (if (65 <=? c) && (c <=? 90) then Some (c - 65)
   else if (97 <=? c) && (c <=? 122) then Some (c - 71)
   else if (48 <=? c) && (c <=? 57) then Some (c + 4)
   else if c =? 43 then Some 62
   else if c =? 47 then Some 63
   else None)%N.

Definition emit (b : byte) (r : result pybytes) : result pybytes :=
  match r with Ok l => Ok (b :: l) | Err e => Err e end.

(** [binascii.a2b_base64] in its default, non-strict mode: characters
    outside the alphabet are skipped, a pad character ends the input once the
    current quad is complete with it, and a quad left open at the end of the
    input is an error. *)
Fixpoint a2b_base64 (quad_pos leftchar pads : N) (s : list N) : result pybytes :=
  match s with
  | [] =>
      if (quad_pos =? 0)%N then Ok []
      else if (quad_pos =? 1)%N
      then Err (binascii_Error "number of data characters cannot be 1 more than a multiple of 4")
      else Err (binascii_Error "Incorrect padding")
  | c :: s' =>
      if (c =? 61)%N then
        if (2 <=? quad_pos)%N then
          if (4 <=? quad_pos + (pads + 1))%N then Ok []
          else a2b_base64 quad_pos leftchar (pads + 1)%N s'
        else a2b_base64 quad_pos leftchar pads s'
      else
        match a2b c with
        | None => a2b_base64 quad_pos leftchar pads s'
        | Some v =>
            match quad_pos with
            | 0%N => a2b_base64 1%N v 0%N s'
            | 1%N =>
                emit (nbyte (N.lor (N.shiftl leftchar 2) (N.shiftr v 4)))
                     (a2b_base64 2%N (N.land v 15) 0%N s')
            | 2%N =>
                emit (nbyte (N.lor (N.shiftl leftchar 4) (N.shiftr v 2)))
                     (a2b_base64 3%N (N.land v 3) 0%N s')
            | _ =>
                emit (nbyte (N.lor (N.shiftl leftchar 6) v))
                     (a2b_base64 0%N 0%N 0%N s')
            end
        end
  end.

(** [base64.b64decode(s)] for a [str] argument: the text is first encoded as
    ASCII, which fails with [ValueError] on any other character. *)
Definition b64decode (s : pystr) : result pybytes :=
  if forallb (fun c => c <? 128)%N s then a2b_base64 0 0 0 s else Err ValueError.

(** [table_b2a_base64]. *)
Definition b2a (v : N) : N :=
  (if v <? 26 then v + 65
   else if v <? 52 then v + 71
   else if v <? 62 then v - 4
   else if v =? 62 then 43 else 47)%N.

(** [base64.b64encode], the encoding side of the scheme. *)
Fixpoint b64encode (bs : pybytes) : pystr :=
  match bs with
  | [] => []
  | [b0] =>
      let n0 := Byte.to_N b0 in
      [b2a (N.shiftr n0 2); b2a (N.shiftl (N.land n0 3) 4); 61%N; 61%N]
  | [b0; b1] =>
      let n0 := Byte.to_N b0 in
      let n1 := Byte.to_N b1 in
      [b2a (N.shiftr n0 2);
       b2a (N.lor (N.shiftl (N.land n0 3) 4) (N.shiftr n1 4));
       b2a (N.shiftl (N.land n1 15) 2); 61%N]
  | b0 :: b1 :: b2 :: rest =>
      let n0 := Byte.to_N b0 in
      let n1 := Byte.to_N b1 in
      let n2 := Byte.to_N b2 in
      b2a (N.shiftr n0 2)
      :: b2a (N.lor (N.shiftl (N.land n0 3) 4) (N.shiftr n1 4))
      :: b2a (N.lor (N.shiftl (N.land n1 15) 2) (N.shiftr n2 6))
      :: b2a (N.land n2 63)
      :: b64encode rest
  end.

(** The four sextets that three octets are cut into, and the checks the
    round-trip proof runs over all octets. *)
Local Open Scope N_scope.




End Base64.

(** ** UTF-8 *)

Module Utf8.

Definition is_cont (n : N) : bool := ((128 <=? n) && (n <=? 191))%N.

(** A Unicode scalar value: a code point that is not a surrogate. *)
Definition is_scalar (c : codepoint) : bool :=
  ((c <? 55296) || (57344 <=? c) && (c <? 1114112))%N.

(** [str.encode('utf-8')] for one code point. *)
Definition encode_cp (c : codepoint) : option pybytes :=
  (if c <? 128 then Some [nbyte c]
   else if c <? 2048 then Some [nbyte (192 + c / 64); nbyte (128 + c mod 64)]
   else if c <? 65536 then
     if (55296 <=? c) && (c <? 57344) then None
     else Some [nbyte (224 + c / 4096); nbyte (128 + (c / 64) mod 64);
                nbyte (128 + c mod 64)]
   else if c <? 1114112 then
     Some [nbyte (240 + c / 262144); nbyte (128 + (c / 4096) mod 64);
           nbyte (128 + (c / 64) mod 64); nbyte (128 + c mod 64)]
   else None)%N.

Fixpoint encode (s : pystr) : result pybytes :=
  match s with
  | [] => Ok []
  | c :: s' =>
      match encode_cp c with
      | None => Err UnicodeEncodeError
      | Some bs =>
          match encode s' with Ok r => Ok (bs ++ r) | Err e => Err e end
      end
  end.

Definition push (c : codepoint) (r : result pystr) : result pystr :=
  match r with Ok l => Ok (c :: l) | Err e => Err e end.

(** [bytes.decode('utf-8')], strict: only well-formed sequences are
    accepted (no over-long forms, no surrogates, nothing above U+10FFFF). *)
Fixpoint decode (bs : pybytes) : result pystr :=
  match bs with
  | [] => Ok []
  | b0 :: r0 =>
      let n0 := Byte.to_N b0 in
      if (n0 <? 128)%N then push n0 (decode r0)
      else if ((194 <=? n0) && (n0 <=? 223))%N then
        match r0 with
        | b1 :: r1 =>
            let n1 := Byte.to_N b1 in
            if is_cont n1
            then push ((n0 - 192) * 64 + (n1 - 128))%N (decode r1)
            else Err UnicodeDecodeError
        | _ => Err UnicodeDecodeError
        end
      else if ((224 <=? n0) && (n0 <=? 239))%N then
        match r0 with
        | b1 :: b2 :: r2 =>
            let n1 := Byte.to_N b1 in
            let n2 := Byte.to_N b2 in
            if is_cont n1 && is_cont n2
               && (negb (n0 =? 224)%N || (160 <=? n1)%N)
               && (negb (n0 =? 237)%N || (n1 <=? 159)%N)
            then push ((n0 - 224) * 4096 + (n1 - 128) * 64 + (n2 - 128))%N
                      (decode r2)
            else Err UnicodeDecodeError
        | _ => Err UnicodeDecodeError
        end
      else if ((240 <=? n0) && (n0 <=? 244))%N then
        match r0 with
        | b1 :: b2 :: b3 :: r3 =>
            let n1 := Byte.to_N b1 in
            let n2 := Byte.to_N b2 in
            let n3 := Byte.to_N b3 in
            if is_cont n1 && is_cont n2 && is_cont n3
               && (negb (n0 =? 240)%N || (144 <=? n1)%N)
               && (negb (n0 =? 244)%N || (n1 <=? 143)%N)
            then push ((n0 - 240) * 262144 + (n1 - 128) * 4096
                       + (n2 - 128) * 64 + (n3 - 128))%N (decode r3)
            else Err UnicodeDecodeError
        | _ => Err UnicodeDecodeError
        end
      else Err UnicodeDecodeError
  end.

End Utf8.

(** ** zlib.decompress

    The inflate side of zlib, with the three framings its [wbits] argument
    selects.  The compressed data is read as a stream of bits, each octet
    least significant bit first. *)

Module Zlib.

Local Open Scope N_scope.
Local Open Scope result_scope.

Definition MAX_WBITS : Z := 15.

Definition truncated {A} : result A :=
  Err (zlib_error "incomplete or truncated stream").
Definition bad {A} (msg : string) : result A := Err (zlib_error msg).

Definition bits_of_byte (b : byte) : list bool :=
  let '(b0, (b1, (b2, (b3, (b4, (b5, (b6, b7))))))) := Byte.to_bits b in
  [b0; b1; b2; b3; b4; b5; b6; b7].

Definition bits_of_bytes (bs : pybytes) : list bool := flat_map bits_of_byte bs.

(** The next [n] bits as a number, first bit least significant. *)
Fixpoint take_bits (n : nat) (s : list bool) : result (N * list bool) :=
  match n with
  | O => Ok (0, s)
  | S n' =>
      match s with
      | [] => truncated
      | b :: s' => '(v, r) <- take_bits n' s' ;; Ok (N.b2n b + 2 * v, r)
      end
  end.

Fixpoint take_bytes (n : nat) (s : list bool) : result (pybytes * list bool) :=
  match n with
  | O => Ok ([], s)
  | S n' =>
      '(v, r) <- take_bits 8 s ;;
      '(l, r') <- take_bytes n' r ;;
      Ok (nbyte v :: l, r')
  end.

(** Drop what is left of the octet being read.  The stream always holds a
    whole number of octets, so the bits still to come tell the position. *)
Definition align (s : list bool) : list bool :=
  skipn (Nat.modulo (List.length s) 8) s.

(** *** Checksums *)

Fixpoint crc_shift (k : nat) (c : N) : N :=
  match k with
  | O => c
  | S k' =>
      crc_shift k' (if N.odd c then N.lxor (N.shiftr c 1) 3988292384
                    else N.shiftr c 1)
  end.

Definition crc32_update (c : N) (b : byte) : N :=
  crc_shift 8 (N.lxor c (Byte.to_N b)).

Definition crc32 (bs : pybytes) : N :=
  N.lxor (fold_left crc32_update bs 4294967295) 4294967295.

Definition adler32 (bs : pybytes) : N :=
  let '(a, b) :=
    fold_left (fun '(a, b) x =>
                 let a' := (a + Byte.to_N x) mod 65521 in
                 (a', (b + a') mod 65521))
              bs (1, 0) in
  b * 65536 + a.

(** *** Huffman codes *)

Record huffman : Type := {
  count : list N;     (* number of symbols of each length 1..15 *)
  symbol : list N     (* the symbols, ordered by length, then by value *)
}.

Definition MAXBITS : nat := 15.

Definition symbols_of_length (lengths : list N) (len : N) : list N :=
  map fst (filter (fun p => snd p =? len)
                  (combine (map N.of_nat (seq 0 (List.length lengths))) lengths)).

Definition all_lengths : list N := map N.of_nat (seq 1 MAXBITS).

(** The codes left unused after each length; below zero when the lengths
    ask for more codes than there are. *)
Fixpoint codes_left (counts : list N) (unused : Z) : Z :=
  match counts with
  | [] => unused
  | c :: counts' =>
      let unused' := (2 * unused - Z.of_N c)%Z in
      if (unused' <? 0)%Z then unused' else codes_left counts' unused'
  end.

(** The decoding table of a set of code lengths, and the number of codes
    left unused (0: complete, positive: incomplete, negative:
    over-subscribed). *)
Definition construct (lengths : list N) : huffman * Z :=
  let counts :=
    map (fun len => N.of_nat (List.length (symbols_of_length lengths len)))
        all_lengths in
  let h := {| count := counts;
              symbol := flat_map (symbols_of_length lengths) all_lengths |} in
  if forallb (N.eqb 0) lengths then (h, 0%Z) else (h, codes_left counts 1%Z).

(** One symbol: bits are taken one at a time until the code read so far
    falls among the codes of the current length. *)
Fixpoint decode_from (counts : list N) (symbols : list N)
         (code first index : N) (invalid : string) (s : list bool)
  : result (N * list bool) :=
  match counts with
  | [] => bad invalid
  | cnt :: counts' =>
      match s with
      | [] => truncated
      | b :: s' =>
          let code := N.lor code (N.b2n b) in
          if code <? first + cnt
          then Ok (nth (N.to_nat (index + (code - first))) symbols 0, s')
          else decode_from counts' symbols (2 * code) (2 * (first + cnt))
                           (index + cnt) invalid s'
      end
  end.

Definition decode (h : huffman) (invalid : string) (s : list bool)
  : result (N * list bool) :=
  decode_from (count h) (symbol h) 0 0 0 invalid s.

(** *** Length and distance codes *)

Definition lbase : list N :=
  [3; 4; 5; 6; 7; 8; 9; 10; 11; 13; 15; 17; 19; 23; 27; 31; 35; 43; 51; 59;
   67; 83; 99; 115; 131; 163; 195; 227; 258].
Definition lext : list nat :=
  [0; 0; 0; 0; 0; 0; 0; 0; 1; 1; 1; 1; 2; 2; 2; 2; 3; 3; 3; 3; 4; 4; 4; 4;
   5; 5; 5; 5; 0]%nat.
Definition dbase : list N :=
  [1; 2; 3; 4; 5; 7; 9; 13; 17; 25; 33; 49; 65; 97; 129; 193; 257; 385; 513;
   769; 1025; 1537; 2049; 3073; 4097; 6145; 8193; 12289; 16385; 24577].
Definition dext : list nat :=
  [0; 0; 0; 0; 1; 1; 2; 2; 3; 3; 4; 4; 5; 5; 6; 6; 7; 7; 8; 8; 9; 9; 10; 10;
   11; 11; 12; 12; 13; 13]%nat.

(** The output so far, most recent octet first, with its length. *)
Definition output : Type := (list byte * N)%type.

Definition put (b : byte) (out : output) : output := (b :: fst out, snd out + 1).

(** Copy [len] octets from [dist] back, one at a time: the copy may run
    into the octets it has just written. *)
Fixpoint copy (len : nat) (dist : nat) (out : output) : output :=
  match len with
  | O => out
  | S len' => copy len' dist (put (nth (dist - 1) (fst out) x00) out)
  end.

(** The symbols of one compressed block, up to its end-of-block symbol. *)
Fixpoint codes (fuel : nat) (window : N) (lencode distcode : huffman)
         (s : list bool) (out : output) : result (list bool * output) :=
  match fuel with
  | O => truncated
  | S fuel' =>
      '(sym, s1) <- decode lencode "invalid literal/length code" s ;;
      if sym <? 256 then codes fuel' window lencode distcode s1 (put (nbyte sym) out)
      else if sym =? 256 then Ok (s1, out)
      else
        let i := N.to_nat (sym - 257) in
        if (29 <=? i)%nat then bad "invalid literal/length code"
        else
          '(extra, s2) <- take_bits (nth i lext 0%nat) s1 ;;
          let len := nth i lbase 0 + extra in
          '(dsym, s3) <- decode distcode "invalid distance code" s2 ;;
          let j := N.to_nat dsym in
          if (30 <=? j)%nat then bad "invalid distance code"
          else
            '(dextra, s4) <- take_bits (nth j dext 0%nat) s3 ;;
            let dist := nth j dbase 0 + dextra in
            if (snd out <? dist) || (window <? dist)
            then bad "invalid distance too far back"
            else codes fuel' window lencode distcode s4
                       (copy (N.to_nat len) (N.to_nat dist) out)
  end.

(** The fixed codes of block type 1. *)
Definition fixed_lengths : list N :=
  repeat 8 144 ++ repeat 9 112 ++ repeat 7 24 ++ repeat 8 8.
Definition fixed_lencode : huffman := fst (construct fixed_lengths).
Definition fixed_distcode : huffman := fst (construct (repeat 5 30)).

(** The order in which a dynamic block lists the lengths of its
    code-length code. *)
Definition order : list nat :=
  [16; 17; 18; 0; 8; 7; 9; 6; 10; 5; 11; 4; 12; 3; 13; 2; 14; 1; 15]%nat.

Fixpoint set_nth {A} (i : nat) (x : A) (l : list A) : list A :=
  match l, i with
  | [], _ => []
  | _ :: l', O => x :: l'
  | y :: l', S i' => y :: set_nth i' x l'
  end.

Fixpoint read_clens (order : list nat) (ncode : nat) (lengths : list N)
         (s : list bool) : result (list N * list bool) :=
  match ncode, order with
  | S n, o :: order' =>
      '(v, s') <- take_bits 3 s ;;
      read_clens order' n (set_nth o v lengths) s'
  | _, _ => Ok (lengths, s)
  end.

(** The literal/length and distance code lengths of a dynamic block, run
    lengths expanded; [acc] holds the lengths read so far, last first. *)
Fixpoint read_lengths (fuel : nat) (total : nat) (lencode : huffman)
         (acc : list N) (s : list bool) : result (list N * list bool) :=
  if (total <=? List.length acc)%nat then Ok (rev acc, s)
  else
    match fuel with
    | O => truncated
    | S fuel' =>
        '(sym, s1) <- decode lencode "invalid code lengths set" s ;;
        if sym <? 16 then read_lengths fuel' total lencode (sym :: acc) s1
        else
          '(len, rep, s2) <-
            (if sym =? 16 then
               match acc with
               | [] => bad "invalid bit length repeat"
               | prev :: _ => '(n, r) <- take_bits 2 s1 ;; Ok (prev, 3 + n, r)
               end
             else if sym =? 17 then '(n, r) <- take_bits 3 s1 ;; Ok (0, 3 + n, r)
             else '(n, r) <- take_bits 7 s1 ;; Ok (0, 11 + n, r)) ;;
          if (total <? List.length acc + N.to_nat rep)%nat
          then bad "invalid bit length repeat"
          else read_lengths fuel' total lencode (repeat len (N.to_nat rep) ++ acc) s2
    end.

(** A set of lengths is usable when it is complete, or when it is
    incomplete but made of at most one code, of length one. *)
Definition usable (lengths : list N) : bool :=
  let '(h, unused) := construct lengths in
  (unused =? 0)%Z
  || ((0 <? unused)%Z
      && (List.length lengths
          =? List.length (filter (N.eqb 0) lengths) + N.to_nat (nth 0 (count h) 0%N))%nat).

Definition dynamic (window : N) (s : list bool) (out : output)
  : result (list bool * output) :=
  '(hlit, s1) <- take_bits 5 s ;;
  '(hdist, s2) <- take_bits 5 s1 ;;
  '(hclen, s3) <- take_bits 4 s2 ;;
  let nlen := (N.to_nat hlit + 257)%nat in
  let ndist := (N.to_nat hdist + 1)%nat in
  let ncode := (N.to_nat hclen + 4)%nat in
  if (286 <? nlen)%nat || (30 <? ndist)%nat
  then bad "too many length or distance symbols"
  else
    '(clens, s4) <- read_clens order ncode (repeat 0 19) s3 ;;
    let '(clcode, unused) := construct clens in
    if negb (unused =? 0)%Z then bad "invalid code lengths set"
    else
      '(lengths, s5) <- read_lengths (S (List.length s4)) (nlen + ndist) clcode [] s4 ;;
      if nth 256 lengths 0 =? 0 then bad "invalid code -- missing end-of-block"
      else
        let llens := firstn nlen lengths in
        let dlens := skipn nlen lengths in
        if negb (usable llens) then bad "invalid literal/lengths set"
        else if negb (usable dlens) then bad "invalid distances set"
        else codes (S (List.length s5)) window (fst (construct llens))
                   (fst (construct dlens)) s5 out.

(** A stored block: the rest of the current octet is dropped, then come
    [LEN], its complement, and [LEN] octets to copy. *)
Definition stored (s : list bool) (out : output) : result (list bool * output) :=
  let s0 := align s in
  '(len, s1) <- take_bits 16 s0 ;;
  '(nlen, s2) <- take_bits 16 s1 ;;
  if negb (nlen =? N.lxor len 65535) then bad "invalid stored block lengths"
  else
    '(data, s3) <- take_bytes (N.to_nat len) s2 ;;
    Ok (s3, (rev data ++ fst out, snd out + len)).

(** The blocks of a deflate stream, up to and including the one marked
    last. *)
Fixpoint inflate_blocks (fuel : nat) (window : N) (s : list bool) (out : output)
  : result (list bool * output) :=
  match fuel with
  | O => truncated
  | S fuel' =>
      '(final, s1) <- take_bits 1 s ;;
      '(type, s2) <- take_bits 2 s1 ;;
      '(s3, out') <-
        (if type =? 0 then stored s2 out
         else if type =? 1
         then codes (S (List.length s2)) window fixed_lencode fixed_distcode s2 out
         else if type =? 2 then dynamic window s2 out
         else bad "invalid block type") ;;
      if final =? 1 then Ok (s3, out')
      else inflate_blocks fuel' window s3 out'
  end.

(** A raw deflate stream: the octets it expands to, and the input left
    after its last block. *)
Definition inflate (window : N) (s : list bool) : result (pybytes * list bool) :=
  '(s', out) <- inflate_blocks (S (List.length s)) window s ([], 0) ;;
  Ok (rev (fst out), s').

(** *** The gzip framing (RFC 1952) *)

Fixpoint skip_zero_terminated (bs : pybytes) : result pybytes :=
  match bs with
  | [] => truncated
  | b :: bs' => if Byte.eqb b x00 then Ok bs' else skip_zero_terminated bs'
  end.

Definition skip_bytes (n : nat) (bs : pybytes) : result pybytes :=
  if (n <=? List.length bs)%nat then Ok (skipn n bs) else truncated.

(** The header.  [all] is the whole input, used for the header checksum. *)
Definition gzip_header (all : pybytes) : result pybytes :=
  match all with
  | id1 :: id2 :: r =>
      if negb (Byte.eqb id1 x1f && Byte.eqb id2 x8b)
      then bad "incorrect header check"
      else
        match r with
        | cm :: flg :: _ :: _ :: _ :: _ :: _ :: _ :: r1 =>
            let f := Byte.to_N flg in
            if negb (Byte.eqb cm x08) then bad "unknown compression method"
            else if negb (N.land f 224 =? 0) then bad "unknown header flags set"
            else
              r2 <- (if N.testbit f 2 then
                       match r1 with
                       | x0 :: x1 :: r' =>
                           skip_bytes (N.to_nat (Byte.to_N x0 + 256 * Byte.to_N x1)) r'
                       | _ => truncated
                       end
                     else Ok r1) ;;
              r3 <- (if N.testbit f 3 then skip_zero_terminated r2 else Ok r2) ;;
              r4 <- (if N.testbit f 4 then skip_zero_terminated r3 else Ok r3) ;;
              if N.testbit f 1 then
                match r4 with
                | c0 :: c1 :: r5 =>
                    let header := firstn (List.length all - List.length r4) all in
                    if Byte.to_N c0 + 256 * Byte.to_N c1 =? crc32 header mod 65536
                    then Ok r5 else bad "header crc mismatch"
                | _ => truncated
                end
              else Ok r4
        | _ => truncated
        end
  | _ => truncated
  end.

(** A gzip member: header, deflate stream, CRC-32 and length of the
    expanded data.  Whatever follows the member is ignored. *)
Definition gunzip (window : N) (data : pybytes) : result pybytes :=
  body <- gzip_header data ;;
  '(out, s) <- inflate window (bits_of_bytes body) ;;
  '(crc, s1) <- take_bits 32 (align s) ;;
  '(isize, _) <- take_bits 32 s1 ;;
  if negb (crc =? crc32 out) then bad "incorrect data check"
  else if negb (isize =? N.of_nat (List.length out) mod 4294967296)
  then bad "incorrect length check"
  else Ok out.

(** *** The zlib framing (RFC 1950) *)

Definition zlib_unwrap (wbits : N) (data : pybytes) : result pybytes :=
  match data with
  | cmf :: flg :: body =>
      let c := Byte.to_N cmf in
      let f := Byte.to_N flg in
      if negb ((c * 256 + f) mod 31 =? 0) then bad "incorrect header check"
      else if negb (c mod 16 =? 8) then bad "unknown compression method"
      else if wbits <? c / 16 + 8 then bad "invalid window size"
      else if N.testbit f 5 then bad "need dictionary"
      else
        '(out, s) <- inflate (2 ^ wbits) (bits_of_bytes body) ;;
        '(a3, s1) <- take_bits 8 (align s) ;;
        '(a2, s2) <- take_bits 8 s1 ;;
        '(a1, s3) <- take_bits 8 s2 ;;
        '(a0, _) <- take_bits 8 s3 ;;
        if ((a3 * 256 + a2) * 256 + a1) * 256 + a0 =? adler32 out then Ok out
        else bad "incorrect data check"
  | _ => truncated
  end.

Definition is_gzip_magic (data : pybytes) : bool :=
  match data with
  | id1 :: id2 :: _ => Byte.eqb id1 x1f && Byte.eqb id2 x8b
  | _ => false
  end.

(** [zlib.decompress(data, wbits)].  A negative [wbits] reads a raw deflate
    stream; 8..15 expects the zlib framing; 16 more expects the gzip
    framing; 32 more accepts either, told apart by the first two octets. *)
Definition decompress (data : pybytes) (wbits : Z) : result pybytes :=
  if ((-15 <=? wbits) && (wbits <=? -8))%Z then
    '(out, _) <- inflate (2 ^ Z.to_N (- wbits)) (bits_of_bytes data) ;; Ok out
  else if ((8 <=? wbits) && (wbits <=? 15))%Z then zlib_unwrap (Z.to_N wbits) data
  else if ((24 <=? wbits) && (wbits <=? 31))%Z
  then gunzip (2 ^ Z.to_N (wbits - 16)) data
  else if ((40 <=? wbits) && (wbits <=? 47))%Z then
    if is_gzip_magic data then gunzip (2 ^ Z.to_N (wbits - 32)) data
    else zlib_unwrap (Z.to_N (wbits - 32)) data
  else Err ValueError.





End Zlib.

(** ** The version pattern

    [re.findall(r'(?:Dumped from database version )([0-9\.]+)', dump)]:
    a literal marker in a non-capturing group, then one capturing group of
    one or more characters of the class [0-9.], greedy.  Nothing follows the
    group, so the group always takes the longest run. *)

Module Re.

Definition marker : pystr := py "Dumped from database version ".

(** The character class [[0-9\.]]. *)
Definition is_verchar (c : codepoint) : bool :=
  ((48 <=? c) && (c <=? 57) || (c =? 46))%N.

(** [lit] matched at the start of [s]: what is left of [s] after it. *)
Fixpoint match_literal (lit s : pystr) : option pystr :=
  match lit with
  | [] => Some s
  | c :: lit' =>
      match s with
      | [] => None
      | d :: s' => if N.eqb c d then match_literal lit' s' else None
      end
  end.

(** The longest prefix of [s] inside the class, and the rest. *)
Fixpoint span (p : codepoint -> bool) (s : pystr) : pystr * pystr :=
  match s with
  | [] => ([], [])
  | c :: s' =>
      if p c then let (v, r) := span p s' in (c :: v, r) else ([], s)
  end.

(** A match of the whole pattern anchored at the start of [s]: the text of
    group 1 and the text after the match. *)
Definition match_here (s : pystr) : option (pystr * pystr) :=
  match match_literal marker s with
  | None => None
  | Some r =>
      match span is_verchar r with
      | ([], _) => None
      | (v, r') => Some (v, r')
      end
  end.

(** [findall] scans left to right; after a match it resumes at the end of
    the match (matches do not overlap).  [skip] counts the characters of the
    current match still to be stepped over. *)
Fixpoint findall_from (skip : nat) (s : pystr) : list pystr :=
  match s with
  | [] => []
  | _ :: s' =>
      match skip with
      | S k => findall_from k s'
      | O =>
          match match_here s with
          | Some (v, _) =>
              v :: findall_from (List.length marker + List.length v - 1) s'
          | None => findall_from 0 s'
          end
      end
  end.

Definition findall (s : pystr) : list pystr := findall_from 0 s.

(** What [str.isspace] and [\s] accept. *)
Definition is_space (c : codepoint) : bool :=
  ((9 <=? c) && (c <=? 13) || (28 <=? c) && (c <=? 32) || (c =? 133) || (c =? 160)
   || (c =? 5760) || (8192 <=? c) && (c <=? 8202) || (c =? 8232) || (c =? 8233)
   || (c =? 8239) || (c =? 8287) || (c =? 12288))%N.

(** The text holds a match of the pattern starting after [pre]. *)
Definition occurs_at (pre : pystr) (dump : pystr) : Prop :=
  exists c rest, is_verchar c = true /\ dump = pre ++ marker ++ c :: rest.
Definition occurs (dump : pystr) : Prop := exists pre, occurs_at pre dump.

End Re.


(** ** Python values

    The values that travel through the script: what [json.loads] builds,
    what a database cell holds, what [json.dumps] prints.  A float is kept
    as its printed form. *)

Inductive pyval : Type :=
| PNone
| PBool (b : bool)
| PInt (z : Z)
| PFloat (repr : pystr)
| PStr (s : pystr)
| PList (l : list pyval)
| PDict (items : list (pystr * pyval)).

(** [obj[key]] with a [str] key: only a dict can answer. *)
Definition getitem (obj : pyval) (key : pystr) : result pyval :=
  match obj with
  | PDict items =>
      match find (fun kv => pystr_eqb (fst kv) key) items with
      | Some kv => Ok (snd kv)
      | None => Err (KeyError key)
      end
  | _ => Err TypeError
  end.

(** [seq[i]] on a list or tuple. *)
Definition index {A} (l : list A) (i : nat) : result A :=
  match nth_error l i with Some a => Ok a | None => Err IndexError end.

Definition str_of_Z (z : Z) : pystr :=
  py (NilZero.string_of_int (Z.to_int z)).

Module Json.

Definition hex_digit (n : N) : codepoint :=
  (if n <? 10 then 48 + n else 87 + n)%N.

Definition u_escape (n : N) : pystr :=
  [92; 117; hex_digit (n / 4096); hex_digit ((n / 256) mod 16);
   hex_digit ((n / 16) mod 16); hex_digit (n mod 16)]%N.

(** One character of a string, as [json.dumps] writes it with
    [ensure_ascii] on. *)
Definition escape (c : codepoint) : pystr :=
  (if c =? 34 then [92; 34]
   else if c =? 92 then py "\\"
   else if c =? 10 then py "\n"
   else if c =? 13 then py "\r"
   else if c =? 9 then py "\t"
   else if c =? 8 then py "\b"
   else if c =? 12 then py "\f"
   else if (32 <=? c) && (c <=? 126) then [c]
   else if c <? 65536 then u_escape c
   else u_escape (55296 + (c - 65536) / 1024) ++ u_escape (56320 + (c - 65536) mod 1024))%N.

Definition quote (s : pystr) : pystr := [34%N] ++ flat_map escape s ++ [34%N].

Fixpoint join (sep : pystr) (l : list pystr) : pystr :=
  match l with
  | [] => []
  | [x] => x
  | x :: l' => x ++ sep ++ join sep l'
  end.

(** [json.dumps] with its default separators. *)
Fixpoint dumps (v : pyval) : pystr :=
  match v with
  | PNone => py "null"
  | PBool true => py "true"
  | PBool false => py "false"
  | PInt z => str_of_Z z
  | PFloat r => r
  | PStr s => quote s
  | PList l => py "[" ++ join (py ", ") (map dumps l) ++ py "]"
  | PDict items =>
      py "{"
      ++ join (py ", ") (map (fun kv => quote (fst kv) ++ py ": " ++ dumps (snd kv)) items)
      ++ py "}"
  end.

End Json.

(** [str(e)] for the exceptions the script formats into log records. *)
Definition exn_str (e : exn) : pystr :=
  match e with
  | SystemExit code => str_of_Z code
  | NameError name => py "name '" ++ py name ++ py "' is not defined"
  | UnboundLocalError name =>
      py "cannot access local variable '" ++ py name
      ++ py "' where it is not associated with a value"
  | IndexError => py "tuple index out of range"
  | KeyError key => py "'" ++ key ++ py "'"
  | TypeError => py "TypeError"
  | ValueError => py "ValueError"
  | UnicodeEncodeError => py "'utf-8' codec can't encode character"
  | UnicodeDecodeError => py "'utf-8' codec can't decode byte"
  | binascii_Error msg => py msg
  | zlib_error msg => py msg
  | JSONDecodeError msg => msg
  | CalledProcessError msg => msg
  | LibraryError _ msg => msg
  end.

(** ** The outside world and the trace *)

Record response : Type := { status_code : Z; text : pystr }.

(** [subprocess.run] is called without [stdout=PIPE]: the [stdout] of the
    result is [None]. *)
Record completed_process : Type := { returncode : Z }.

Inductive level : Type := DEBUG | INFO | WARNING | ERROR.

Definition levelno (l : level) : Z :=
  match l with DEBUG => 10 | INFO => 20 | WARNING => 30 | ERROR => 40 end.

Inductive logmsg : Type :=
| Text (s : pystr)
| Object (v : pyval).

Inductive event : Type :=
| Log (lvl : level) (msg : logmsg)
| HttpGet (url : pystr)
| HttpPost (url : pystr) (data : pystr)
| DockerFromEnv
| ContainersRun (image : pystr) (environment : list pystr) (ports : list (Z * Z))
| Sleep (seconds : Z)
| SubprocessRun (args : list pystr) (input : pybytes)
| PgConnect (user password host : pystr) (port : Z) (database : pystr)
| PgCursor
| PgExecute (query : pystr)
| PgFetchall
| PgCursorClose
| PgConnectionClose
| ContainerStop (id : pystr)
| ContainerRemove (id : pystr)
| Print (s : pystr).

(** What the libraries and the services behind them answer.  Each call site
    of the script runs at most once, so an answer depends on the arguments
    only.  [json_loads] is the standard parser: its verdict on a text is
    taken as given. *)
Record World : Type := {
  requests_get : pystr -> result response;
  json_loads : pystr -> result pyval;
  docker_from_env : result unit;
  containers_run : pystr -> list pystr -> result pystr;
  subprocess_run : list pystr -> pybytes -> result completed_process;
  psycopg2_connect : pystr -> pystr -> pystr -> Z -> pystr -> result unit;
  connection_cursor : result unit;
  cursor_execute : pystr -> result unit;
  cursor_fetchall : pystr -> result (list (list pyval));
  cursor_close : result unit;
  connection_close : result unit;
  requests_post : pystr -> pystr -> result response;
  container_stop : pystr -> result unit;
  container_remove : pystr -> result unit
}.

(** ** Running Python statements

    A statement runs on a state (the trace so far and the variables of the
    current frame) and either completes with a value or raises.  A raised
    exception carries its [__context__] chain: the exceptions that were being
    handled when it was raised. *)

Inductive object : Type :=
| ConnectionObj
| CursorObj
| ContainerObj (id : pystr).

Record state : Type := { trace : list event; vars : list (string * object) }.

Inductive outcome (A : Type) : Type :=
| Ret (a : A)
| Raise (e : exn) (context : list exn).
Arguments Raise {A} e context.

Definition M (A : Type) : Type := state -> outcome A * state.

Definition ret {A} (a : A) : M A := fun s => (Ret a, s).

Definition bind {A B} (m : M A) (k : A -> M B) : M B :=
  fun s =>
    match m s with
    | (Ret a, s') => k a s'
    | (Raise e c, s') => (Raise e c, s')
    end.

Declare Scope py_scope.
Delimit Scope py_scope with py.
Notation "x <- c ;; k" := (bind c (fun x => k))
  (at level 61, c at next level, right associativity) : py_scope.
Notation "c ;; k" := (bind c (fun _ => k))
  (at level 61, right associativity) : py_scope.

Definition raise {A} (e : exn) : M A := fun s => (Raise e [], s).

Definition lift {A} (r : result A) : M A :=
  match r with Ok a => ret a | Err e => raise e end.

Definition emit (ev : event) : M unit :=
  fun s => (Ret tt, {| trace := trace s ++ [ev]; vars := vars s |}).

(** A call that leaves the process: it is recorded, then answered. *)
Definition ext {A} (ev : event) (answer : result A) : M A :=
  bind (emit ev) (fun _ => lift answer).

Definition sys_exit {A} (code : Z) : M A := raise (SystemExit code).

(** [try: body except <classes> as e: handler e]. *)
Definition try_except {A} (body : M A) (catches : exn -> bool)
           (handler : exn -> M A) : M A :=
  fun s =>
    match body s with
    | (Ret a, s') => (Ret a, s')
    | (Raise e c, s') =>
        if catches e then
          match handler e s' with
          | (Ret a, s'') => (Ret a, s'')
          | (Raise e' c', s'') => (Raise e' (c' ++ e :: c), s'')
          end
        else (Raise e c, s')
    end.

(** [try: body finally: final].  The final suite always runs; when it
    raises, its exception wins, and keeps the one it displaced as context. *)
Definition try_finally {A} (body : M A) (final : M unit) : M A :=
  fun s =>
    match body s with
    | (Ret a, s') =>
        match final s' with
        | (Ret _, s'') => (Ret a, s'')
        | (Raise e' c', s'') => (Raise e' c', s'')
        end
    | (Raise e c, s') =>
        match final s' with
        | (Ret _, s'') => (Raise e c, s'')
        | (Raise e' c', s'') => (Raise e' (c' ++ e :: c), s'')
        end
    end.

Definition store (name : string) (o : object) : M unit :=
  fun s => (Ret tt, {| trace := trace s; vars := (name, o) :: vars s |}).

Definition lookup (name : string) (vs : list (string * object)) : option object :=
  option_map snd (find (fun p => String.eqb (fst p) name) vs).

(** Reading a local of a function. *)
Definition load_fast (name : string) : M object :=
  fun s =>
    match lookup name (vars s) with
    | Some o => (Ret o, s)
    | None => (Raise (UnboundLocalError name) [], s)
    end.

(** Reading a name at module level. *)
Definition load_name (name : string) : M object :=
  fun s =>
    match lookup name (vars s) with
    | Some o => (Ret o, s)
    | None => (Raise (NameError name) [], s)
    end.

(** A function call: the body runs in a frame of its own. *)
Definition call {A} (body : M A) : M A :=
  fun s =>
    let '(o, s') := body {| trace := trace s; vars := [] |} in
    (o, {| trace := trace s'; vars := vars s |}).

(** [logging.basicConfig(level={...}.get('info'))]. *)
Definition root_level : Z :=
  match find (fun kv => String.eqb (fst kv) "info")
             [("debug"%string, levelno DEBUG); ("warning"%string, levelno WARNING);
              ("info"%string, levelno INFO)] with
  | Some kv => snd kv
  | None => levelno WARNING
  end.

Definition logging_log (lvl : level) (msg : logmsg) : M unit :=
  if (root_level <=? levelno lvl)%Z then emit (Log lvl msg) else ret tt.

Definition logging_info (s : pystr) : M unit := logging_log INFO (Text s).
Definition logging_error (s : pystr) : M unit := logging_log ERROR (Text s).
Definition logging_debug (s : pystr) : M unit := logging_log DEBUG (Text s).

(** The exit status the interpreter ends with. *)
Definition exit_status {A} (o : outcome A) : Z :=
  match o with
  | Ret _ => 0
  | Raise (SystemExit code) _ => code
  | Raise _ _ => 1
  end.

(** ** The script *)

Section Script.

Variable w : World.

Local Open Scope py_scope.

(** [get_postgres_dump(access_token)] *)
Definition get_postgres_dump (access_token : pystr) : M pyval :=
  call
    (let url :=
       py "https://hackattic.com/challenges/backup_restore/problem?access_token="
       ++ access_token in
     logging_info (py "Getting PostgreSQL dump from " ++ url) ;;
     response <- ext (HttpGet url) (requests_get w url) ;;
     (if negb (status_code response =? 200)%Z then
        logging_error (py "Failed to get PostgreSQL dump from " ++ url
                       ++ [10%N] ++ text response) ;;
        sys_exit 1
      else ret tt) ;;
     dump <- try_except
               (lift (json_loads w (text response)))
               (fun e => match e with JSONDecodeError _ => true | _ => false end)
               (fun e =>
                  logging_error (py "Failed to parse json output from " ++ url
                                 ++ [10%N] ++ exn_str e) ;;
                  sys_exit 1) ;;
     lift (getitem dump (py "dump"))).

(** [zlib.decompress(base64.b64decode(dump), 16 + zlib.MAX_WBITS).decode('utf-8')].
    [b64decode] takes text (or bytes, which JSON cannot deliver); any other
    value is a [TypeError]. *)
Definition decode_dump (dump : pyval) : result pystr :=
  match dump with
  | PStr s =>
      (raw <- Base64.b64decode s ;;
       sql <- Zlib.decompress raw (16 + Zlib.MAX_WBITS) ;;
       Utf8.decode sql)%result
  | _ => Err TypeError
  end.

(** [decompress_and_decode_dump(dump)] *)
Definition decompress_and_decode_dump (dump : pyval) : M pystr :=
  call
    (logging_info (py "Decompressing and decoding dump") ;;
     lift (decode_dump dump)).

Definition alive_query : pystr :=
  py "select ssn from public.criminal_records where status='alive'".

Fixpoint first_columns (rows : list (list pyval)) : result (list pyval) :=
  match rows with
  | [] => Ok []
  | record :: rows' =>
      (v <- index record 0 ;; l <- first_columns rows' ;; Ok (v :: l))%result
  end.

(** [get_db_records(usr, pwd, hst, db, port)].  The handler ends without a
    [return], so after it the function falls off its end and returns
    [None].  In the [finally] suite, [if connection:] reads the local
    [connection]; a psycopg2 connection object is always true, so the two
    [close()] calls follow whenever the read succeeds. *)
Definition get_db_records (usr pwd hst db : pystr) (port : Z) : M pyval :=
  call
    (try_finally
       (try_except
          (ext (PgConnect usr pwd hst port db) (psycopg2_connect w usr pwd hst port db) ;;
           store "connection" ConnectionObj ;;
           load_fast "connection" ;;
           ext PgCursor (connection_cursor w) ;;
           store "cursor" CursorObj ;;
           load_fast "cursor" ;;
           ext (PgExecute alive_query) (cursor_execute w alive_query) ;;
           load_fast "cursor" ;;
           table_records <- ext PgFetchall (cursor_fetchall w alive_query) ;;
           ssns <- lift (first_columns table_records) ;;
           ret (PDict [(py "alive_ssns", PList ssns)]))
          is_Exception
          (fun error =>
             logging_error (py "Error while fetching data from PostgreSQL: "
                            ++ exn_str error) ;;
             ret PNone))
       (load_fast "connection" ;;
        load_fast "cursor" ;;
        ext PgCursorClose (cursor_close w) ;;
        load_fast "connection" ;;
        ext PgConnectionClose (connection_close w) ;;
        logging_debug (py "PostgreSQL connection is closed"))).

(** [submit_solution(access_token, data)] *)
Definition submit_solution (access_token : pystr) (data : pyval) : M pystr :=
  call
    (let url :=
       py "https://hackattic.com/challenges/backup_restore/solve?access_token="
       ++ access_token ++ py "&playground=1" in
     logging_info (py "Submitting solution to " ++ url) ;;
     response <- ext (HttpPost url (Json.dumps data))
                     (requests_post w url (Json.dumps data)) ;;
     (if negb (status_code response =? 200)%Z then
        logging_error (py "Failed to submit solution to " ++ url
                       ++ [10%N] ++ text response) ;;
        sys_exit 1
      else ret tt) ;;
     logging_debug (py "Solution submitted to " ++ url) ;;
     ret (text response)).

(** [re.findall(...)[0]] *)
Definition db_version_of (dump : pystr) : result pystr :=
  index (Re.findall dump) 0.

Definition container_id (o : object) : pystr :=
  match o with ContainerObj id => id | _ => [] end.

Definition username : pystr := py "postgres".
Definition db_name : pystr := py "postgres".

Definition image (db_version : pystr) : pystr := py "postgres:" ++ db_version.

Definition environment : list pystr :=
  [py "POSTGRES_USER=" ++ username; py "POSTGRES_DB=" ++ db_name;
   py "POSTGRES_PASSWORD=" ++ username].

Definition ports : list (Z * Z) := [(5432, 5432)%Z].

(** The outer [try] suite from [time.sleep(2)] on: restore, query,
    submit.  [id] is [container.id]. *)
Definition restore_query_submit (access_token dump id : pystr) : M unit :=
  emit (Sleep 2) ;;
  logging_info (py "Launched PostgreSQL container " ++ id) ;;
  logging_info (py "Restoring PostgreSQL dump to " ++ id) ;;
  try_except
    (let args :=
       [py "docker"; py "exec"; py "-i"; id; py "psql"; py "-d"; db_name;
        py "-U"; username; py "-h"; py "localhost"; py "-p"; py "5432"] in
     input <- lift (Utf8.encode dump) ;;
     restore <- ext (SubprocessRun args input) (subprocess_run w args input) ;;
     (if negb (returncode restore =? 0)%Z then
        logging_error (py "Failed to restore PostgreSQL dump to " ++ id
                       ++ [10%N] ++ py "None") ;;
        sys_exit 1
      else ret tt) ;;
     logging_info (py "Restored PostgreSQL dump to " ++ id))
    (fun e => match e with CalledProcessError _ => true | _ => false end)
    (fun e =>
       logging_error (py "Failed to restore PostgreSQL dump to " ++ id
                      ++ [10%N] ++ exn_str e) ;;
       sys_exit 1) ;;
  results <- get_db_records username username (py "localhost") db_name 5432 ;;
  logging_log INFO (Object results) ;;
  answer <- submit_solution access_token results ;;
  emit (Print answer).

(** The suite of the outer [try]: [container] is bound only once
    [client.containers.run] has returned. *)
Definition provision_restore_query_submit (access_token dump db_version : pystr)
  : M unit :=
  id <- ext (ContainersRun (image db_version) environment ports)
            (containers_run w (image db_version) environment) ;;
  store "container" (ContainerObj id) ;;
  restore_query_submit access_token dump id.

(** The suite of the outer [finally]. *)
Definition cleanup : M unit :=
  c <- load_name "container" ;;
  logging_info (py "Stopping PostgreSQL container " ++ container_id c) ;;
  c <- load_name "container" ;;
  ext (ContainerStop (container_id c)) (container_stop w (container_id c)) ;;
  c <- load_name "container" ;;
  logging_info (py "Stopped PostgreSQL container " ++ container_id c) ;;
  c <- load_name "container" ;;
  logging_info (py "Removing PostgreSQL container " ++ container_id c) ;;
  c <- load_name "container" ;;
  ext (ContainerRemove (container_id c)) (container_remove w (container_id c)).

(** The body under [if __name__ == '__main__':], for a given [sys.argv]. *)
Definition main (argv : list pystr) : M unit :=
  access_token <- lift (index argv 1) ;;
  encoded <- get_postgres_dump access_token ;;
  dump <- decompress_and_decode_dump encoded ;;
  db_version <- lift (db_version_of dump) ;;
  ext DockerFromEnv (docker_from_env w) ;;
  try_finally (provision_restore_query_submit access_token dump db_version) cleanup.

End Script.

(** A run of the script from a fresh interpreter. *)
Definition initial : state := {| trace := []; vars := [] |}.

Definition run (w : World) (argv : list pystr) : outcome unit * list event :=
  let '(o, s) := main w argv initial in (o, trace s).

(** ** Reading a trace *)

Definition is_stop (ev : event) : bool :=
  match ev with ContainerStop _ => true | _ => false end.
Definition is_remove (ev : event) : bool :=
  match ev with ContainerRemove _ => true | _ => false end.
Definition is_log (ev : event) : bool :=
  match ev with Log _ _ => true | _ => false end.

Definition count (p : event -> bool) (t : list event) : nat :=
  List.length (filter p t).

(** The calls that left the process, log records set aside. *)
Definition calls (t : list event) : list event :=
  filter (fun ev => negb (is_log ev)) t.

(** ** Vocabulary of the properties *)


(** When [r] is an error, its exception satisfies [P]. *)
Definition errs_in {A} (P : exn -> Prop) (r : result A) : Prop :=
  match r with Err e => P e | Ok _ => True end.

(** [zlib.error], and what [b64decode] raises: [binascii.Error] or, on
    text outside ASCII, [ValueError]. *)
Definition is_zlib_error (e : exn) : Prop := exists msg, e = zlib_error msg.
Definition is_binascii_error (e : exn) : Prop :=
  e = ValueError \/ exists msg, e = binascii_Error msg.

(** Every event [m] records satisfies [p]. *)
Definition emits_only {A} (p : event -> bool) (m : M A) : Prop :=
  forall s, exists t, trace (snd (m s)) = trace s ++ t /\ forallb p t = true.

(** [m] leaves the variables of the current frame as they were. *)
Definition keeps_vars {A} (m : M A) : Prop :=
  forall s, vars (snd (m s)) = vars s.

(** The calls made through psycopg2. *)
Definition is_pg (ev : event) : bool :=
  match ev with
  | PgConnect _ _ _ _ _ | PgCursor | PgExecute _ | PgFetchall
  | PgCursorClose | PgConnectionClose => true
  | _ => false
  end.

(** The events of the [try] suite after the container is bound. *)
Definition is_work (ev : event) : bool :=
  match ev with
  | Log _ _ | Sleep _ | SubprocessRun _ _ | HttpPost _ _ | Print _ => true
  | _ => is_pg ev
  end.

(** What the [finally] suite records up to [container.stop()], and after
    it. *)
Definition stop_events (id : pystr) : list event :=
  [Log INFO (Text (py "Stopping PostgreSQL container " ++ id)); ContainerStop id].

Definition remove_events (id : pystr) : list event :=
  [Log INFO (Text (py "Stopped PostgreSQL container " ++ id));
   Log INFO (Text (py "Removing PostgreSQL container " ++ id));
   ContainerRemove id].

(** What the [finally] suite records, given how [container.stop()] ends. *)
Definition cleanup_events (w : World) (id : pystr) : list event :=
  match container_stop w id with
  | Ok _ => stop_events id ++ remove_events id
  | Err _ => stop_events id
  end.

(** The events before the [try] statement. *)
Definition is_prelude (ev : event) : bool :=
  match ev with
  | Log _ _ | HttpGet _ | DockerFromEnv => true
  | _ => false
  end.

(** The lines of a text, each ended by a line feed. *)
Definition unlines (l : list pystr) : pystr := flat_map (fun x => x ++ [10%N]) l.

(** A small dump that names version 15.3. *)
Definition sample_dump : pystr :=
  unlines [py "--";
           py "-- PostgreSQL database dump";
           py "--";
           [];
           py "-- Dumped from database version 15.3 (Debian 15.3-1.pgdg120+1)";
           py "-- Dumped by pg_dump version 15.3";
           [];
           py "CREATE TABLE public.criminal_records (ssn text, status text);"].

(** base64 of a gzip member of [sample_dump]. *)
Definition sample_encoded : pystr :=
  py "H4sIAAAAAAACA1WMPQ+CMBRF9/6KN0K0xGqcnFDYGPxgJy19NE2ANn3F6L8XdFC3e3LvuZwzzuHsKJqAt0sFWkapJCHoafBzx5a+mDNq6IIbvoM7BrJuBLHPdpAUqKz8ABeZN9qI7WYl0h9dPcGbZvn9cxk7Xcu8LqHOj1UJflK9bbM22MGOsm8Cti5ogoRohIiPuAaKMk70hvTAXk20PAHDAAAA".

(** [sys.argv] of a run with access token [abc123]. *)
Definition sample_argv : list pystr := [py "pg_dump_restore.py"; py "abc123"].

(** The JSON text of an object whose only field, [dump], is
    [sample_encoded]. *)
Definition sample_body : pystr :=
  [123; 34]%N ++ py "dump" ++ [34; 58; 32; 34]%N ++ sample_encoded ++ [34; 125]%N.

(** Every service answers as hoped. *)
Definition happy_world : World := {|
  requests_get := fun _ => Ok {| status_code := 200; text := sample_body |};
  json_loads := fun body =>
    if pystr_eqb body sample_body
    then Ok (PDict [(py "dump", PStr sample_encoded)])
    else Err (JSONDecodeError (py "Expecting value: line 1 column 1 (char 0)"));
  docker_from_env := Ok tt;
  containers_run := fun _ _ => Ok (py "c0ffee");
  subprocess_run := fun _ _ => Ok {| returncode := 0 |};
  psycopg2_connect := fun _ _ _ _ _ => Ok tt;
  connection_cursor := Ok tt;
  cursor_execute := fun _ => Ok tt;
  cursor_fetchall := fun _ => Ok [[PStr (py "999-99-9999")]];
  cursor_close := Ok tt;
  connection_close := Ok tt;
  requests_post := fun _ _ => Ok {| status_code := 200; text := py "passed" |};
  container_stop := fun _ => Ok tt;
  container_remove := fun _ => Ok tt
|}.

(** As [happy_world], but the docker daemon refuses to stop the
    container. *)
Definition stop_fails_world : World := {|
  requests_get := requests_get happy_world;
  json_loads := json_loads happy_world;
  docker_from_env := Ok tt;
  containers_run := containers_run happy_world;
  subprocess_run := subprocess_run happy_world;
  psycopg2_connect := psycopg2_connect happy_world;
  connection_cursor := Ok tt;
  cursor_execute := cursor_execute happy_world;
  cursor_fetchall := cursor_fetchall happy_world;
  cursor_close := Ok tt;
  connection_close := Ok tt;
  requests_post := requests_post happy_world;
  container_stop := fun _ =>
    Err (LibraryError "docker.errors.APIError" (py "500 Server Error: cannot stop container"));
  container_remove := fun _ => Ok tt
|}.

(** As [happy_world], but the image cannot be started. *)
Definition no_image_world : World := {|
  requests_get := requests_get happy_world;
  json_loads := json_loads happy_world;
  docker_from_env := Ok tt;
  containers_run := fun _ _ =>
    Err (LibraryError "docker.errors.ImageNotFound" (py "pull access denied for postgres"));
  subprocess_run := subprocess_run happy_world;
  psycopg2_connect := psycopg2_connect happy_world;
  connection_cursor := Ok tt;
  cursor_execute := cursor_execute happy_world;
  cursor_fetchall := cursor_fetchall happy_world;
  cursor_close := Ok tt;
  connection_close := Ok tt;
  requests_post := requests_post happy_world;
  container_stop := fun _ => Ok tt;
  container_remove := fun _ => Ok tt
|}.

(** As [happy_world], but the server does not accept connections yet. *)
Definition connection_refused_world : World := {|
  requests_get := requests_get happy_world;
  json_loads := json_loads happy_world;
  docker_from_env := Ok tt;
  containers_run := containers_run happy_world;
  subprocess_run := subprocess_run happy_world;
  psycopg2_connect := fun _ _ _ _ _ =>
    Err (LibraryError "psycopg2.OperationalError" (py "connection refused"));
  connection_cursor := Ok tt;
  cursor_execute := cursor_execute happy_world;
  cursor_fetchall := cursor_fetchall happy_world;
  cursor_close := Ok tt;
  connection_close := Ok tt;
  requests_post := requests_post happy_world;
  container_stop := fun _ => Ok tt;
  container_remove := fun _ => Ok tt
|}.



(** A row of [public.criminal_records], as far as the query reads it. *)
Record criminal_record : Type := { ssn : pyval; status : pyval }.

(** [status = 'alive'] as the server evaluates it: true for that text
    only (not for NULL). *)
Definition is_alive (r : criminal_record) : bool :=
  match status r with
  | PStr s => pystr_eqb s (py "alive")
  | _ => false
  end.

(** The result set of
    [select ssn from public.criminal_records where status='alive']
    when the server scans the table in the order [scan]: one row of one
    column for every row that passes the condition. *)
Definition select_alive_ssn (scan : list criminal_record) : list (list pyval) :=
  map (fun r => [ssn r]) (filter is_alive scan).

(** The submit request. *)
Definition is_post (ev : event) : bool :=
  match ev with HttpPost _ _ => true | _ => false end.

(** A table with one alive row between a deceased one and one without
    status. *)
Definition sample_table : list criminal_record :=
  [ {| ssn := PStr (py "111-11-1111"); status := PStr (py "deceased") |};
    {| ssn := PStr (py "999-99-9999"); status := PStr (py "alive") |};
    {| ssn := PStr (py "222-22-2222"); status := PNone |} ].

(** As [happy_world], with the server answering the query over
    [sample_table]. *)
Definition table_world : World := {|
  requests_get := requests_get happy_world;
  json_loads := json_loads happy_world;
  docker_from_env := Ok tt;
  containers_run := containers_run happy_world;
  subprocess_run := subprocess_run happy_world;
  psycopg2_connect := psycopg2_connect happy_world;
  connection_cursor := Ok tt;
  cursor_execute := cursor_execute happy_world;
  cursor_fetchall := fun _ => Ok (select_alive_ssn sample_table);
  cursor_close := Ok tt;
  connection_close := Ok tt;
  requests_post := requests_post happy_world;
  container_stop := fun _ => Ok tt;
  container_remove := fun _ => Ok tt
|}.


(** The URL [get_postgres_dump] requests. *)
Definition problem_url (access_token : pystr) : pystr :=
  py "https://hackattic.com/challenges/backup_restore/problem?access_token="
  ++ access_token.

(** The exceptions of the three decoding stages. *)
Definition is_decode_error (e : exn) : Prop :=
  e = TypeError \/ is_binascii_error e \/ is_zlib_error e \/ e = UnicodeDecodeError.

(** The state once [decompress_and_decode_dump] has logged its start. *)
Definition decoding_started (s : state) : state :=
  {| trace := trace s ++ [Log INFO (Text (py "Decompressing and decoding dump"))];
     vars := vars s |}.

(** The encoding scheme as the specification names it, the script holding
    only its inverse: the plain text is UTF-8 encoded, compressed into a
    gzip member and base64 encoded.  [compress] is the compressor. *)
Definition encode_dump (compress : pybytes -> pybytes) (x : pystr) : result pystr :=
  match Utf8.encode x with
  | Ok sql => Ok (Base64.b64encode (compress sql))
  | Err e => Err e
  end.


(** A dump whose marker is followed by no version. *)
Definition no_marker_dump : pystr :=
  py "-- PostgreSQL database dump; Dumped from database version unknown".

(** A dump with two marker lines. *)
Definition two_markers_dump : pystr :=
  py "-- Dumped from database version 15.3 (Debian 15.3-1)" ++ [10%N]
  ++ py "-- Dumped from database version 14.9" ++ [10%N].

(** C4 read to the letter: the version returned is that of the first
    place where the marker is followed by digits and dots and then white
    space. *)
Definition version_before_space_claim : Prop :=
  forall dump pre v ws rest,
    dump = pre ++ Re.marker ++ v ++ ws :: rest ->
    v <> [] -> forallb Re.is_verchar v = true -> Re.is_space ws = true ->
    (forall pre' v' ws' rest',
       dump = pre' ++ Re.marker ++ v' ++ ws' :: rest' ->
       v' <> [] -> forallb Re.is_verchar v' = true -> Re.is_space ws' = true ->
       List.length pre <= List.length pre') ->
    db_version_of dump = Ok v.

(** A dump taken from a beta server, with a second marker line. *)
Definition beta_dump : pystr :=
  py "Dumped from database version 16beta1" ++ [10%N]
  ++ py "Dumped from database version 15.3" ++ [10%N].

(** C6 read to the letter: the decompressor detects by itself whether a
    gzip header is there, which is what zlib does under
    [wbits = 32 + MAX_WBITS]. *)
Definition auto_detecting_decode (dump : pyval) : result pystr :=
  match dump with
  | PStr s =>
      (raw <- Base64.b64decode s ;;
       sql <- Zlib.decompress raw (32 + Zlib.MAX_WBITS) ;;
       Utf8.decode sql)%result
  | _ => Err TypeError
  end.

(** base64 of "hello" compressed in the zlib framing. *)
Definition zlib_framed_hello : pystr := py "eJzLSM3JyQcABiwCFQ==".

(** ** Vocabulary of the further properties *)

(** The URL [submit_solution] posts to. *)
Definition solve_url (access_token : pystr) : pystr :=
  py "https://hackattic.com/challenges/backup_restore/solve?access_token="
  ++ access_token ++ py "&playground=1".

(** The command line of the restore, for the container [id]. *)
Definition restore_args (id : pystr) : list pystr :=
  [py "docker"; py "exec"; py "-i"; id; py "psql"; py "-d"; db_name;
   py "-U"; username; py "-h"; py "localhost"; py "-p"; py "5432"].

(** What the [try] suite records from [time.sleep(2)] up to the restore
    call. *)
Definition restore_started (id : pystr) (input : pybytes) : list event :=
  [Sleep 2;
   Log INFO (Text (py "Launched PostgreSQL container " ++ id));
   Log INFO (Text (py "Restoring PostgreSQL dump to " ++ id));
   SubprocessRun (restore_args id) input].

Definition is_cursor_close (ev : event) : bool :=
  match ev with PgCursorClose => true | _ => false end.
Definition is_connection_close (ev : event) : bool :=
  match ev with PgConnectionClose => true | _ => false end.
Definition is_containers_run (ev : event) : bool :=
  match ev with ContainersRun _ _ _ => true | _ => false end.

(** Anything but a log record of level [DEBUG]. *)
Definition not_debug (ev : event) : bool :=
  match ev with Log DEBUG _ => false | _ => true end.

(** The error record of a failed query. *)
Definition query_error_record (e : exn) : event :=
  Log ERROR (Text (py "Error while fetching data from PostgreSQL: " ++ exn_str e)).


(** As [happy_world], but there is no [docker] program to run. *)
Definition no_docker_binary_world : World := {|
  requests_get := requests_get happy_world;
  json_loads := json_loads happy_world;
  docker_from_env := docker_from_env happy_world;
  containers_run := containers_run happy_world;
  subprocess_run := fun _ _ => Err (LibraryError "FileNotFoundError" (py "No such file or directory: 'docker'"));
  psycopg2_connect := psycopg2_connect happy_world;
  connection_cursor := connection_cursor happy_world;
  cursor_execute := cursor_execute happy_world;
  cursor_fetchall := cursor_fetchall happy_world;
  cursor_close := cursor_close happy_world;
  connection_close := connection_close happy_world;
  requests_post := requests_post happy_world;
  container_stop := container_stop happy_world;
  container_remove := container_remove happy_world
|}.

(** As [happy_world], but the table of the query does not exist. *)
Definition no_table_world : World := {|
  requests_get := requests_get happy_world;
  json_loads := json_loads happy_world;
  docker_from_env := docker_from_env happy_world;
  containers_run := containers_run happy_world;
  subprocess_run := subprocess_run happy_world;
  psycopg2_connect := psycopg2_connect happy_world;
  connection_cursor := connection_cursor happy_world;
  cursor_execute := fun _ => Err (LibraryError "psycopg2.errors.UndefinedTable" (py "relation does not exist"));
  cursor_fetchall := cursor_fetchall happy_world;
  cursor_close := cursor_close happy_world;
  connection_close := connection_close happy_world;
  requests_post := fun _ data => Ok {| status_code := 200; text := py "rejected: " ++ data |};
  container_stop := container_stop happy_world;
  container_remove := container_remove happy_world
|}.

(** As [happy_world], but the connection cannot open a cursor. *)
Definition no_cursor_world : World := {|
  requests_get := requests_get happy_world;
  json_loads := json_loads happy_world;
  docker_from_env := docker_from_env happy_world;
  containers_run := containers_run happy_world;
  subprocess_run := subprocess_run happy_world;
  psycopg2_connect := psycopg2_connect happy_world;
  connection_cursor := Err (LibraryError "psycopg2.InterfaceError" (py "connection already closed"));
  cursor_execute := cursor_execute happy_world;
  cursor_fetchall := cursor_fetchall happy_world;
  cursor_close := cursor_close happy_world;
  connection_close := connection_close happy_world;
  requests_post := requests_post happy_world;
  container_stop := container_stop happy_world;
  container_remove := container_remove happy_world
|}.

(** As [happy_world], but the fetched object has no [dump] field. *)
Definition no_dump_field_world : World := {|
  requests_get := requests_get happy_world;
  json_loads := fun _ => Ok (PDict [(py "error", PStr (py "rate limited"))]);
  docker_from_env := docker_from_env happy_world;
  containers_run := containers_run happy_world;
  subprocess_run := subprocess_run happy_world;
  psycopg2_connect := psycopg2_connect happy_world;
  connection_cursor := connection_cursor happy_world;
  cursor_execute := cursor_execute happy_world;
  cursor_fetchall := cursor_fetchall happy_world;
  cursor_close := cursor_close happy_world;
  connection_close := connection_close happy_world;
  requests_post := requests_post happy_world;
  container_stop := container_stop happy_world;
  container_remove := container_remove happy_world
|}.



(** The run downloads [encoded]: the token is [sys.argv[1]], and the problem
    endpoint answers 200 with a JSON text that holds [encoded] under
    ["dump"]. *)
Definition downloads (w : World) (argv : list pystr) (token : pystr)
           (encoded : pyval) : Prop :=
  index argv 1 = Ok token
  /\ exists r parsed,
       requests_get w (problem_url token) = Ok r /\ status_code r = 200%Z
       /\ json_loads w (text r) = Ok parsed
       /\ getitem parsed (py "dump") = Ok encoded.

(** [sql] is what the base64 text [encoded] holds, gunzipped. *)
Definition sql_octets (encoded : pyval) (sql : pybytes) : Prop :=
  exists s raw,
    encoded = PStr s /\ Base64.b64decode s = Ok raw
    /\ Zlib.decompress raw (16 + Zlib.MAX_WBITS) = Ok sql.

Definition pystr_eq_dec : forall a b : pystr, {a = b} + {a <> b} :=
  list_eq_dec N.eq_dec.

(** Any event but a [subprocess.run] with another command line than the
    restore in [id], or with another input than [sql]. *)
Definition restores_only (id : pystr) (sql : pybytes) (ev : event) : bool :=
  match ev with
  | SubprocessRun args input =>
      if list_eq_dec pystr_eq_dec args (restore_args id)
      then if list_eq_dec Byte.byte_eq_dec input sql then true else false
      else false
  | _ => true
  end.

Definition is_subprocess_run (ev : event) : bool :=
  match ev with SubprocessRun _ _ => true | _ => false end.

(** * Properties *)

Unset Implicit Arguments.

(** ** Checks against the libraries

    The models of [base64], [zlib], the UTF-8 codec, [json.dumps] and
    [re.findall] evaluated on inputs for which the answers of the libraries
    are known. *)

Example b64decode_vectors :
  Base64.b64decode (py "aGVsbG8=") = Ok (map nbyte [104; 101; 108; 108; 111]%N)
  /\ Base64.b64decode (py "aGVsbG8") = Err (binascii_Error "Incorrect padding")
  /\ Base64.b64decode (py "aGV sbG8=") = Ok (map nbyte [104; 101; 108; 108; 111]%N)
  /\ Base64.b64decode (py "a") = Err (binascii_Error "number of data characters cannot be 1 more than a multiple of 4")
  /\ Base64.b64decode (py "aGU=x") = Ok (map nbyte [104; 101]%N)
  /\ Base64.b64decode (py "YQ=a") = Err (binascii_Error "Incorrect padding")
  /\ Base64.b64decode (py "YW=Jj") = Ok (map nbyte [97; 98; 99]%N).
Proof. vm_compute. repeat split. Qed.

(** A member with a fixed-code block, one with back references, one whose
    block carries its own codes, one with a stored block, one with a damaged
    checksum, and one cut short. *)
Example decompress_vectors :
  Zlib.decompress (map nbyte [31; 139; 8; 0; 0; 0; 0; 0; 2; 3; 203; 72; 205; 201; 201; 7; 0; 134; 166; 16; 54; 5; 0; 0; 0]%N) 31
  = Ok (map nbyte [104; 101; 108; 108; 111]%N)
  /\ Zlib.decompress (map nbyte [31; 139; 8; 0; 0; 0; 0; 0; 2; 3; 243; 244; 11; 118; 13; 10; 81; 240; 244; 11; 241; 87; 40; 40; 77; 202; 201; 76; 214; 75; 46; 202; 204; 205; 204; 75; 204; 137; 47; 74; 77; 206; 47; 74; 41; 86; 8; 115; 244; 9; 117; 13; 86; 208; 80; 183; 180; 180; 212; 5; 35; 75; 75; 117; 29; 5; 245; 196; 156; 204; 178; 84; 117; 77; 107; 46; 207; 225; 101; 8; 0; 103; 119; 35; 173; 20; 1; 0; 0]%N) 31
     = Ok (map nbyte [73; 78; 83; 69; 82; 84; 32; 73; 78; 84; 79; 32; 112; 117; 98; 108; 105; 99; 46; 99; 114; 105; 109; 105; 110; 97; 108; 95; 114; 101; 99; 111; 114; 100; 115; 32; 86; 65; 76; 85; 69; 83; 32; 40; 39; 57; 57; 57; 45; 57; 57; 45; 57; 57; 57; 57; 39; 44; 32; 39; 97; 108; 105; 118; 101; 39; 41; 59; 10; 73; 78; 83; 69; 82; 84; 32; 73; 78; 84; 79; 32; 112; 117; 98; 108; 105; 99; 46; 99; 114; 105; 109; 105; 110; 97; 108; 95; 114; 101; 99; 111; 114; 100; 115; 32; 86; 65; 76; 85; 69; 83; 32; 40; 39; 57; 57; 57; 45; 57; 57; 45; 57; 57; 57; 57; 39; 44; 32; 39; 97; 108; 105; 118; 101; 39; 41; 59; 10; 73; 78; 83; 69; 82; 84; 32; 73; 78; 84; 79; 32; 112; 117; 98; 108; 105; 99; 46; 99; 114; 105; 109; 105; 110; 97; 108; 95; 114; 101; 99; 111; 114; 100; 115; 32; 86; 65; 76; 85; 69; 83; 32; 40; 39; 57; 57; 57; 45; 57; 57; 45; 57; 57; 57; 57; 39; 44; 32; 39; 97; 108; 105; 118; 101; 39; 41; 59; 10; 73; 78; 83; 69; 82; 84; 32; 73; 78; 84; 79; 32; 112; 117; 98; 108; 105; 99; 46; 99; 114; 105; 109; 105; 110; 97; 108; 95; 114; 101; 99; 111; 114; 100; 115; 32; 86; 65; 76; 85; 69; 83; 32; 40; 39; 57; 57; 57; 45; 57; 57; 45; 57; 57; 57; 57; 39; 44; 32; 39; 97; 108; 105; 118; 101; 39; 41; 59; 10]%N)
  /\ Zlib.decompress (map nbyte [31; 139; 8; 0; 0; 0; 0; 0; 2; 3; 21; 144; 129; 13; 0; 49; 8; 2; 87; 113; 53; 1; 209; 253; 39; 40; 237; 231; 211; 132; 10; 158; 154; 219; 40; 184; 75; 141; 93; 8; 21; 65; 189; 173; 46; 206; 178; 48; 69; 200; 41; 106; 93; 173; 239; 60; 162; 34; 159; 111; 144; 122; 154; 247; 83; 236; 60; 2; 115; 232; 185; 89; 247; 153; 184; 214; 80; 187; 135; 20; 213; 48; 255; 122; 69; 144; 82; 31; 103; 58; 154; 205; 234; 164; 231; 32; 89; 130; 142; 129; 66; 243; 179; 65; 203; 73; 56; 112; 57; 131; 60; 205; 197; 160; 250; 182; 154; 176; 152; 86; 85; 89; 210; 74; 65; 235; 207; 32; 159; 141; 159; 38; 235; 194; 3; 108; 146; 215; 216; 219; 16; 176; 121; 12; 101; 21; 59; 3; 48; 214; 30; 77; 201; 147; 177; 218; 33; 42; 230; 11; 91; 74; 201; 67; 181; 211; 230; 223; 210; 196; 114; 213; 184; 72; 154; 139; 92; 170; 152; 211; 32; 249; 233; 155; 117; 6; 214; 28; 158; 162; 80; 153; 244; 15; 31; 38; 39; 231; 174; 215; 49; 32; 132; 248; 123; 200; 118; 30; 220; 112; 215; 113; 144; 1; 0; 0]%N) 31
     = Ok (map nbyte [102; 99; 103; 97; 98; 32; 98; 102; 97; 32; 100; 97; 98; 103; 103; 98; 100; 98; 32; 103; 97; 98; 100; 97; 103; 97; 100; 97; 32; 99; 101; 103; 99; 32; 98; 101; 32; 99; 98; 100; 102; 98; 32; 98; 97; 100; 104; 32; 103; 102; 104; 104; 102; 101; 100; 99; 100; 98; 101; 32; 104; 102; 104; 101; 98; 98; 32; 103; 99; 102; 99; 104; 103; 97; 98; 32; 102; 102; 102; 104; 104; 98; 98; 101; 104; 98; 97; 101; 104; 101; 103; 102; 97; 104; 102; 99; 98; 104; 97; 100; 101; 99; 100; 103; 103; 104; 98; 99; 104; 103; 32; 101; 99; 103; 32; 101; 103; 102; 103; 100; 99; 98; 99; 99; 100; 100; 97; 104; 99; 101; 101; 97; 99; 103; 32; 102; 102; 99; 32; 97; 104; 32; 103; 103; 103; 103; 98; 104; 103; 97; 100; 98; 100; 104; 99; 98; 102; 97; 98; 97; 99; 32; 98; 102; 97; 98; 100; 103; 99; 101; 102; 102; 104; 98; 98; 104; 104; 104; 104; 101; 98; 99; 98; 102; 101; 104; 99; 32; 97; 100; 32; 102; 99; 32; 97; 32; 101; 98; 101; 32; 102; 99; 102; 100; 32; 32; 32; 102; 100; 100; 100; 103; 100; 100; 32; 104; 102; 97; 97; 101; 104; 101; 100; 102; 104; 102; 102; 98; 100; 98; 100; 104; 100; 102; 100; 104; 97; 104; 102; 98; 98; 103; 100; 104; 99; 103; 102; 98; 103; 104; 103; 98; 99; 99; 99; 97; 99; 104; 99; 104; 102; 99; 32; 32; 99; 97; 97; 98; 32; 99; 103; 100; 100; 97; 101; 100; 101; 32; 100; 102; 101; 32; 103; 99; 97; 102; 104; 32; 103; 32; 99; 32; 99; 32; 32; 97; 104; 99; 97; 99; 99; 99; 104; 98; 32; 97; 102; 32; 32; 32; 104; 98; 32; 97; 100; 100; 101; 97; 98; 32; 104; 32; 97; 98; 104; 102; 32; 32; 100; 101; 104; 32; 32; 104; 32; 100; 32; 101; 32; 100; 104; 99; 103; 98; 103; 104; 102; 98; 100; 103; 98; 100; 101; 98; 99; 102; 99; 101; 99; 104; 100; 98; 103; 104; 99; 100; 99; 103; 32; 103; 102; 103; 100; 102; 102; 98; 102; 97; 102; 32; 104; 104; 97; 103; 102; 32; 101; 32; 98; 98; 100; 98; 98; 101; 101; 97; 99; 101; 99; 103]%N)
  /\ Zlib.decompress (map nbyte [31; 139; 8; 0; 0; 0; 0; 0; 4; 3; 1; 6; 0; 249; 255; 115; 116; 111; 114; 101; 100; 11; 249; 67; 86; 6; 0; 0; 0]%N) 31
     = Ok (map nbyte [115; 116; 111; 114; 101; 100]%N)
  /\ Zlib.decompress (map nbyte [31; 139; 8; 0; 0; 0; 0; 0; 2; 3; 203; 72; 205; 201; 201; 7; 0; 134; 166; 16; 55; 5; 0; 0; 0]%N) 31
     = Err (zlib_error "incorrect data check")
  /\ Zlib.decompress (map nbyte [31; 139; 8; 0; 0; 0; 0; 0; 2; 3; 203; 72; 205; 201; 201; 7; 0; 134; 166; 16; 54; 5]%N) 31
     = Err (zlib_error "incomplete or truncated stream").
Proof. vm_compute. repeat split. Qed.

Example utf8_vectors :
  Utf8.encode [104; 233; 8364; 128512]%N = Ok (map nbyte [104; 195; 169; 226; 130; 172; 240; 159; 152; 128]%N)
  /\ Utf8.decode (map nbyte [104; 195; 169; 226; 130; 172; 240; 159; 152; 128]%N) = Ok [104; 233; 8364; 128512]%N
  /\ Utf8.decode (map nbyte [192; 128]%N) = Err UnicodeDecodeError
  /\ Utf8.decode (map nbyte [237; 160; 128]%N) = Err UnicodeDecodeError
  /\ Utf8.encode [55296]%N = Err UnicodeEncodeError.
Proof. vm_compute. repeat split. Qed.

Example json_dumps_vectors :
  Json.dumps PNone = py "null"
  /\ Json.dumps (PDict [(py "alive_ssns",
                          PList [PStr (py "999-99-9999"); PNone; PStr [233; 10; 128512]%N])])
     = [123; 34; 97; 108; 105; 118; 101; 95; 115; 115; 110; 115; 34; 58; 32; 91; 34; 57; 57; 57; 45; 57; 57; 45; 57; 57; 57; 57; 34; 44; 32; 110; 117; 108; 108; 44; 32; 34; 92; 117; 48; 48; 101; 57; 92; 110; 92; 117; 100; 56; 51; 100; 92; 117; 100; 101; 48; 48; 34; 93; 125]%N.
Proof. vm_compute. repeat split. Qed.

Example findall_vectors :
  Re.findall (unlines [py "-- Dumped from database version 15.3 (Debian 15.3-1)"; py "-- Dumped by pg_dump version 15.3"]) = [py "15.3"]
  /\ Re.findall (unlines [py "Dumped from database version 16beta1"; py "Dumped from database version 15.3"]) = [py "16"; py "15.3"]
  /\ Re.findall (unlines [py "Dumped from database version unknown"]) = [].
Proof. vm_compute. repeat split. Qed.

Example decode_sample : decode_dump (PStr sample_encoded) = Ok sample_dump.
Proof. vm_compute. reflexivity. Qed.

(** The calls of a run in which every service answers as hoped. *)
Example happy_run :
  fst (run happy_world sample_argv) = Ret tt
  /\ calls (snd (run happy_world sample_argv))
     = [HttpGet (problem_url (py "abc123"));
        DockerFromEnv;
        ContainersRun (py "postgres:15.3") environment ports;
        Sleep 2;
        SubprocessRun
          [py "docker"; py "exec"; py "-i"; py "c0ffee"; py "psql"; py "-d";
           py "postgres"; py "-U"; py "postgres"; py "-h"; py "localhost";
           py "-p"; py "5432"]
          (match Utf8.encode sample_dump with Ok b => b | Err _ => [] end);
        PgConnect (py "postgres") (py "postgres") (py "localhost") 5432 (py "postgres");
        PgCursor;
        PgExecute alive_query;
        PgFetchall;
        PgCursorClose;
        PgConnectionClose;
        HttpPost
          (py "https://hackattic.com/challenges/backup_restore/solve?access_token=abc123&playground=1")
          (Json.dumps (PDict [(py "alive_ssns", PList [PStr (py "999-99-9999")])]));
        Print (py "passed");
        ContainerStop (py "c0ffee");
        ContainerRemove (py "c0ffee")].
Proof. vm_compute. split; reflexivity. Qed.

(** ** The version pattern *)

Module ReFacts.
Import Re.

Lemma match_literal_app lit r : match_literal lit (lit ++ r) = Some r.
Proof.
  induction lit as [|c lit IH]; simpl; [reflexivity|].
  now rewrite N.eqb_refl.
Qed.

Lemma match_literal_inv lit : forall s r,
  match_literal lit s = Some r -> s = lit ++ r.
Proof.
  induction lit as [|c lit IH]; simpl; intros s r H.
  - now inversion H.
  - destruct s as [|d s]; [discriminate|].
    destruct (N.eqb_spec c d); [|discriminate].
    subst d. f_equal. now apply IH.
Qed.

Lemma span_app p s : let (v, r) := span p s in s = v ++ r.
Proof.
  induction s as [|c s IH]; simpl; [reflexivity|].
  destruct (p c); [|reflexivity].
  destruct (span p s) as [v r]. simpl. now f_equal.
Qed.

Lemma span_all p s : forallb p (fst (span p s)) = true.
Proof.
  induction s as [|c s IH]; simpl; [reflexivity|].
  destruct (p c) eqn:E; [|reflexivity].
  destruct (span p s) as [v r]. simpl in *. now rewrite E.
Qed.

(** The group takes every class character up to the first one outside. *)
Lemma span_run p v r :
  forallb p v = true ->
  match r with [] => True | c :: _ => p c = false end ->
  span p (v ++ r) = (v, r).
Proof.
  intros Hv Hr. induction v as [|c v IH]; simpl in *.
  - destruct r as [|c r]; [reflexivity|]. simpl. now rewrite Hr.
  - apply andb_true_iff in Hv as [Hc Hv]. rewrite Hc, (IH Hv). reflexivity.
Qed.

Lemma match_here_inv s v r :
  match_here s = Some (v, r) ->
  exists c v', v = c :: v' /\ is_verchar c = true /\ s = marker ++ c :: v' ++ r.
Proof.
  unfold match_here. intros H.
  destruct (match_literal marker s) as [r0|] eqn:E; [|discriminate].
  apply match_literal_inv in E.
  pose proof (span_app is_verchar r0) as Happ.
  pose proof (span_all is_verchar r0) as Hall.
  destruct (span is_verchar r0) as [v0 r1]. simpl in Hall.
  destruct v0 as [|c v']; [discriminate|].
  inversion H; subst. simpl in Hall. apply andb_true_iff in Hall as [Hc _].
  exists c, v'. split; [reflexivity|split; [exact Hc|reflexivity]].
Qed.

Lemma match_here_run v r :
  v <> [] -> forallb is_verchar v = true ->
  match r with [] => True | c :: _ => is_verchar c = false end ->
  match_here (marker ++ v ++ r) = Some (v, r).
Proof.
  intros Hne Hv Hr. unfold match_here.
  rewrite match_literal_app, (span_run _ _ _ Hv Hr).
  destruct v; [contradiction|reflexivity].
Qed.

(** No character of the class is a white-space character. *)
Lemma space_not_verchar c : is_space c = true -> is_verchar c = false.
Proof.
  unfold is_space, is_verchar. intros H.
  repeat rewrite ?orb_true_iff, ?andb_true_iff, ?N.leb_le, ?N.eqb_eq in H.
  rewrite orb_false_iff, andb_false_iff, !N.leb_gt, N.eqb_neq. lia.
Qed.

Lemma findall_nil s : ~ occurs s -> findall s = [].
Proof.
  unfold findall. induction s as [|c s IH]; intros Hno; [reflexivity|].
  cbn [findall_from].
  destruct (match_here (c :: s)) as [[v r]|] eqn:E.
  - exfalso. apply match_here_inv in E as (d & v' & _ & Hd & Hs).
    apply Hno. exists [], d, (v' ++ r). split; [exact Hd|exact Hs].
  - apply IH. intros (pre & d & rest & Hd & Hs). apply Hno.
    exists (c :: pre), d, rest. split; [exact Hd|]. rewrite <- app_comm_cons. now f_equal.
Qed.

Lemma findall_occurs s : occurs s -> findall s <> [].
Proof.
  intros (pre & c & rest & Hc & ->). unfold findall.
  induction pre as [|d pre IH].
  - assert (E : exists v r, match_here (marker ++ c :: rest) = Some (v, r)).
    { unfold match_here. rewrite match_literal_app. simpl. rewrite Hc.
      destruct (span is_verchar rest) as [v r]. eauto. }
    destruct E as (v & r & E).
    change ([] ++ marker ++ c :: rest) with (marker ++ c :: rest).
    remember (marker ++ c :: rest) as s eqn:Hs.
    destruct s as [|x s]; [discriminate Hs|].
    cbn [findall_from]. rewrite E. discriminate.
  - rewrite <- app_comm_cons. cbn [findall_from].
    destruct (match_here (d :: pre ++ marker ++ c :: rest)) as [[v r]|];
      [discriminate|exact IH].
Qed.

(** The first match decides [findall(...)[0]]. *)
Lemma findall_first pre v r :
  v <> [] -> forallb is_verchar v = true ->
  match r with [] => True | c :: _ => is_verchar c = false end ->
  (forall pre', occurs_at pre' (pre ++ marker ++ v ++ r) ->
                List.length pre <= List.length pre') ->
  exists more, findall (pre ++ marker ++ v ++ r) = v :: more.
Proof.
  intros Hne Hv Hr. unfold findall. induction pre as [|d pre IH]; intros Hfirst.
  - pose proof (match_here_run _ _ Hne Hv Hr) as E.
    change ([] ++ marker ++ v ++ r) with (marker ++ v ++ r).
    remember (marker ++ v ++ r) as s eqn:Hs.
    destruct s as [|x s]; [discriminate Hs|].
    cbn [findall_from]. rewrite E. eauto.
  - rewrite <- app_comm_cons. cbn [findall_from].
    destruct (match_here (d :: pre ++ marker ++ v ++ r)) as [[v0 r0]|] eqn:E.
    + exfalso. apply match_here_inv in E as (c & v' & _ & Hc & Hs).
      specialize (Hfirst [] (ex_intro _ c (ex_intro _ (v' ++ r0) (conj Hc Hs)))).
      simpl in Hfirst. lia.
    + apply IH. intros pre' (c & rest & Hc & Hs).
      assert (H : occurs_at (d :: pre') ((d :: pre) ++ marker ++ v ++ r)).
      { exists c, rest. split; [exact Hc|]. rewrite <- !app_comm_cons. now f_equal. }
      apply Hfirst in H. simpl in H. lia.
Qed.

End ReFacts.

(** ** Octets *)

Lemma to_N_lt_256 b : (Byte.to_N b < 256)%N.
Proof. pose proof (Byte.to_N_bounded b). lia. Qed.

Lemma nbyte_to_N b : nbyte (Byte.to_N b) = b.
Proof.
  unfold nbyte. rewrite N.mod_small by apply to_N_lt_256.
  now rewrite Byte.of_to_N.
Qed.





(** ** base64 *)

Module Base64Facts.
Import Base64.

Local Open Scope N_scope.















End Base64Facts.

(** ** UTF-8 *)

Module Utf8Facts.
Import Utf8.

Local Open Scope N_scope.

Ltac arith := zify; Z.to_euclidean_division_equations; lia.

Ltac bool_arith :=
  repeat rewrite ?andb_true_iff, ?orb_true_iff, ?andb_false_iff, ?orb_false_iff,
    ?negb_true_iff, ?negb_false_iff, ?N.ltb_lt, ?N.leb_le, ?N.eqb_eq,
    ?N.ltb_ge, ?N.leb_gt, ?N.eqb_neq;
  arith.

Ltac decide_if :=
  match goal with
  | |- context [if ?b then _ else _] =>
      let E := fresh "E" in
      first [ assert (E : b = true) by bool_arith
            | assert (E : b = false) by bool_arith ];
      rewrite E; clear E
  end.

Lemma decode_eq bs :
  decode bs =
  match bs with
  | [] => Ok []
  | b0 :: r0 =>
      let n0 := Byte.to_N b0 in
      if (n0 <? 128)%N then push n0 (decode r0)
      else if ((194 <=? n0) && (n0 <=? 223))%N then
        match r0 with
        | b1 :: r1 =>
            let n1 := Byte.to_N b1 in
            if is_cont n1
            then push ((n0 - 192) * 64 + (n1 - 128))%N (decode r1)
            else Err UnicodeDecodeError
        | _ => Err UnicodeDecodeError
        end
      else if ((224 <=? n0) && (n0 <=? 239))%N then
        match r0 with
        | b1 :: b2 :: r2 =>
            let n1 := Byte.to_N b1 in
            let n2 := Byte.to_N b2 in
            if is_cont n1 && is_cont n2
               && (negb (n0 =? 224)%N || (160 <=? n1)%N)
               && (negb (n0 =? 237)%N || (n1 <=? 159)%N)
            then push ((n0 - 224) * 4096 + (n1 - 128) * 64 + (n2 - 128))%N
                      (decode r2)
            else Err UnicodeDecodeError
        | _ => Err UnicodeDecodeError
        end
      else if ((240 <=? n0) && (n0 <=? 244))%N then
        match r0 with
        | b1 :: b2 :: b3 :: r3 =>
            let n1 := Byte.to_N b1 in
            let n2 := Byte.to_N b2 in
            let n3 := Byte.to_N b3 in
            if is_cont n1 && is_cont n2 && is_cont n3
               && (negb (n0 =? 240)%N || (144 <=? n1)%N)
               && (negb (n0 =? 244)%N || (n1 <=? 143)%N)
            then push ((n0 - 240) * 262144 + (n1 - 128) * 4096
                       + (n2 - 128) * 64 + (n3 - 128))%N (decode r3)
            else Err UnicodeDecodeError
        | _ => Err UnicodeDecodeError
        end
      else Err UnicodeDecodeError
  end.
Proof. destruct bs; reflexivity. Qed.





(** A text can be encoded exactly when it holds scalar values only. *)
Lemma encode_scalar s :
  forallb is_scalar s = true <-> exists bs, encode s = Ok bs.
Proof.
  induction s as [|c s IH]; cbn [forallb encode].
  - split; eauto.
  - rewrite andb_true_iff, IH. unfold is_scalar, encode_cp. split.
    + intros [Hc [bs Hs]]. rewrite Hs.
      destruct (c <? 128); [eauto|]. destruct (c <? 2048); [eauto|].
      destruct (N.ltb_spec c 65536).
      * destruct (N.leb_spec 55296 c); destruct (N.ltb_spec c 57344);
          cbn [andb]; eauto; exfalso; revert Hc; bool_arith.
      * destruct (N.ltb_spec c 1114112); eauto. exfalso; revert Hc; bool_arith.
    + intros [bs H].
      destruct (encode s) as [r|e].
      * split; [|eauto].
        destruct (N.ltb_spec c 128); [bool_arith|].
        destruct (N.ltb_spec c 2048); [bool_arith|].
        destruct (N.ltb_spec c 65536).
        -- destruct (N.leb_spec 55296 c); destruct (N.ltb_spec c 57344);
             cbn [andb] in H; try discriminate; bool_arith.
        -- destruct (N.ltb_spec c 1114112); [bool_arith|discriminate].
      * exfalso. repeat match type of H with
                        | context [if ?b then _ else _] => destruct b
                        end; discriminate.
Qed.

End Utf8Facts.

(** ** zlib: stored blocks *)

Module ZlibFacts.
Import Zlib.

Local Open Scope N_scope.

Ltac arith := zify; Z.to_euclidean_division_equations; lia.


Lemma bits_of_bytes_app a b :
  bits_of_bytes (a ++ b) = bits_of_bytes a ++ bits_of_bytes b.
Proof. apply flat_map_app. Qed.























(** With [wbits = 16 + MAX_WBITS] the data must be a gzip member. *)
Lemma decompress_31 data : decompress data (16 + MAX_WBITS) = gunzip (2 ^ 15) data.
Proof. reflexivity. Qed.


End ZlibFacts.

(** ** The exceptions of the decoding stages *)

Lemma errs_rbind {A B} (P : exn -> Prop) (r : result A) (k : A -> result B) :
  errs_in P r -> (forall a, errs_in P (k a)) -> errs_in P (rbind r k).
Proof. destruct r as [a|e]; cbn; auto. Qed.

Lemma errs_truncated {A} : errs_in is_zlib_error (@Zlib.truncated A).
Proof. cbn. unfold is_zlib_error. eauto. Qed.

Lemma errs_bad {A} msg : errs_in is_zlib_error (@Zlib.bad A msg).
Proof. cbn. unfold is_zlib_error. eauto. Qed.

Ltac errs_with tac :=
  repeat first
    [ tac
    | exact I
    | apply errs_truncated
    | apply errs_bad
    | apply errs_rbind; [|intros]
    | match goal with
      | |- errs_in _ (if ?b then _ else _) => destruct b
      | |- errs_in _ (match ?x with _ => _ end) => destruct x
      end ].

Module ZlibErrors.
Import Zlib.

Lemma take_bits_errs n : forall s, errs_in is_zlib_error (take_bits n s).
Proof.
  induction n as [|n IH]; intros s; cbn [take_bits]; errs_with ltac:(apply IH).
Qed.

Lemma take_bytes_errs n : forall s, errs_in is_zlib_error (take_bytes n s).
Proof.
  induction n as [|n IH]; intros s; cbn [take_bytes];
    errs_with ltac:(first [apply take_bits_errs | apply IH]).
Qed.

Lemma decode_from_errs counts : forall symbols code first index invalid s,
  errs_in is_zlib_error (decode_from counts symbols code first index invalid s).
Proof.
  induction counts as [|c counts IH]; intros; cbn [decode_from];
    errs_with ltac:(apply IH).
Qed.

Lemma huffman_decode_errs h invalid s : errs_in is_zlib_error (decode h invalid s).
Proof. apply decode_from_errs. Qed.

Lemma codes_errs fuel : forall window lencode distcode s out,
  errs_in is_zlib_error (codes fuel window lencode distcode s out).
Proof.
  induction fuel as [|fuel IH]; intros; cbn [codes];
    errs_with ltac:(first [apply huffman_decode_errs | apply take_bits_errs | apply IH]).
Qed.

Lemma read_clens_errs order : forall ncode lengths s,
  errs_in is_zlib_error (read_clens order ncode lengths s).
Proof.
  induction order as [|o order IH]; intros ncode lengths s;
    destruct ncode; cbn [read_clens];
    errs_with ltac:(first [apply take_bits_errs | apply IH]).
Qed.

Lemma read_lengths_errs fuel : forall total lencode acc s,
  errs_in is_zlib_error (read_lengths fuel total lencode acc s).
Proof.
  induction fuel as [|fuel IH]; intros; cbn [read_lengths];
    errs_with ltac:(first [apply huffman_decode_errs | apply take_bits_errs | apply IH]).
Qed.

Lemma dynamic_errs window s out : errs_in is_zlib_error (dynamic window s out).
Proof.
  unfold dynamic;
    errs_with ltac:(first [apply take_bits_errs | apply read_clens_errs
                          | apply read_lengths_errs | apply codes_errs]).
Qed.

Lemma stored_errs s out : errs_in is_zlib_error (stored s out).
Proof.
  unfold stored;
    errs_with ltac:(first [apply take_bits_errs | apply take_bytes_errs]).
Qed.

Lemma inflate_blocks_errs fuel : forall window s out,
  errs_in is_zlib_error (inflate_blocks fuel window s out).
Proof.
  induction fuel as [|fuel IH]; intros; cbn [inflate_blocks];
    errs_with ltac:(first [apply take_bits_errs | apply stored_errs
                          | apply codes_errs | apply dynamic_errs | apply IH]).
Qed.

Lemma inflate_errs window s : errs_in is_zlib_error (inflate window s).
Proof. unfold inflate; errs_with ltac:(apply inflate_blocks_errs). Qed.

Lemma skip_zero_terminated_errs bs : errs_in is_zlib_error (skip_zero_terminated bs).
Proof.
  induction bs as [|b bs IH]; cbn [skip_zero_terminated]; errs_with ltac:(apply IH).
Qed.

Lemma skip_bytes_errs n bs : errs_in is_zlib_error (skip_bytes n bs).
Proof. unfold skip_bytes; errs_with fail. Qed.

Lemma gzip_header_errs data : errs_in is_zlib_error (gzip_header data).
Proof.
  unfold gzip_header.
  destruct data as [|id1 [|id2 r]]; try apply errs_truncated.
  destruct r as [|cm [|flg [|m0 [|m1 [|m2 [|m3 [|xfl [|os r1]]]]]]]];
    errs_with ltac:(first [apply skip_zero_terminated_errs | apply skip_bytes_errs]).
Qed.

Lemma gunzip_errs window data : errs_in is_zlib_error (gunzip window data).
Proof.
  unfold gunzip;
    errs_with ltac:(first [apply gzip_header_errs | apply inflate_errs
                          | apply take_bits_errs]).
Qed.

(** A member accepted by [gunzip] starts with the gzip magic number and the
    deflate method octet. *)
Lemma gunzip_header window data out :
  gunzip window data = Ok out ->
  exists rest, data = x1f :: x8b :: x08 :: rest.
Proof.
  unfold gunzip, gzip_header. intros H.
  destruct data as [|id1 [|id2 r]]; try discriminate H.
  destruct (Byte.eqb id1 x1f) eqn:E1; [|discriminate H].
  destruct (Byte.eqb id2 x8b) eqn:E2; [|discriminate H].
  cbn [andb negb] in H.
  destruct r as [|cm [|flg [|m0 [|m1 [|m2 [|m3 [|xfl [|os r1]]]]]]]];
    try discriminate H.
  destruct (Byte.eqb cm x08) eqn:E3; [|discriminate H].
  apply Byte.byte_dec_bl in E1, E2, E3. subst. eauto.
Qed.

End ZlibErrors.

Module Base64Errors.
Import Base64.

Lemma errs_emit b r :
  errs_in is_binascii_error r -> errs_in is_binascii_error (emit b r).
Proof. destruct r; cbn; auto. Qed.

Lemma a2b_base64_errs s : forall quad_pos leftchar pads,
  errs_in is_binascii_error (a2b_base64 quad_pos leftchar pads s).
Proof.
  induction s as [|c s IH]; intros; cbn [a2b_base64].
  - repeat match goal with |- errs_in _ (if ?b then _ else _) => destruct b end;
      cbn; unfold is_binascii_error; eauto.
  - repeat first
      [ exact I | apply IH | apply errs_emit
      | match goal with
        | |- errs_in _ (if ?b then _ else _) => destruct b
        | |- errs_in _ (match ?x with _ => _ end) => destruct x
        end ].
Qed.

Lemma b64decode_errs s : errs_in is_binascii_error (b64decode s).
Proof.
  unfold b64decode. destruct (forallb (fun c => N.ltb c 128) s).
  - apply a2b_base64_errs.
  - cbn. unfold is_binascii_error. auto.
Qed.

End Base64Errors.

Module Utf8Errors.
Import Utf8.

Lemma errs_push c r :
  errs_in (eq UnicodeDecodeError) r -> errs_in (eq UnicodeDecodeError) (push c r).
Proof. destruct r; cbn; auto. Qed.

Lemma utf8_decode_errs_bounded n : forall bs,
  (List.length bs <= n)%nat -> errs_in (eq UnicodeDecodeError) (decode bs).
Proof.
  induction n as [|n IH]; intros bs Hn.
  - destruct bs; [exact I|cbn in Hn; lia].
  - rewrite Utf8Facts.decode_eq. destruct bs as [|b0 r0]; [exact I|].
    cbn [List.length] in Hn. cbv zeta.
    repeat first
      [ exact I | reflexivity
      | apply errs_push; apply IH; cbn [List.length] in *; lia
      | match goal with
        | |- errs_in _ (if ?b then _ else _) => destruct b
        | |- errs_in _ (match ?x with _ => _ end) => destruct x
        end ].
Qed.

Lemma utf8_decode_errs bs : errs_in (eq UnicodeDecodeError) (decode bs).
Proof. apply (utf8_decode_errs_bounded (List.length bs)). lia. Qed.

End Utf8Errors.

(** ** What a statement can add to the trace *)

Section Emits.

Variable p : event -> bool.

Lemma emits_ret {A} (a : A) : emits_only p (ret a).
Proof. intros s. exists []. now rewrite app_nil_r. Qed.

Lemma emits_raise {A} e : emits_only p (@raise A e).
Proof. intros s. exists []. now rewrite app_nil_r. Qed.

Lemma emits_lift {A} (r : result A) : emits_only p (lift r).
Proof. destruct r; [apply emits_ret|apply emits_raise]. Qed.

Lemma emits_emit ev : p ev = true -> emits_only p (emit ev).
Proof. intros H s. exists [ev]. cbn. now rewrite H. Qed.

Lemma emits_bind {A B} (m : M A) (k : A -> M B) :
  emits_only p m -> (forall a, emits_only p (k a)) -> emits_only p (bind m k).
Proof.
  intros Hm Hk s. unfold bind. destruct (Hm s) as (t1 & E1 & P1).
  destruct (m s) as [[a|e c] s1]; cbn [snd] in *.
  - destruct (Hk a s1) as (t2 & E2 & P2). exists (t1 ++ t2).
    rewrite E2, E1, app_assoc, forallb_app, P1, P2. auto.
  - exists t1. auto.
Qed.

Lemma emits_ext {A} ev (r : result A) : p ev = true -> emits_only p (ext ev r).
Proof. intros H. apply emits_bind; [now apply emits_emit|intros; apply emits_lift]. Qed.

Lemma emits_try_except {A} (body : M A) catches handler :
  emits_only p body -> (forall e, emits_only p (handler e)) ->
  emits_only p (try_except body catches handler).
Proof.
  intros Hb Hh s. unfold try_except. destruct (Hb s) as (t1 & E1 & P1).
  destruct (body s) as [[a|e c] s1]; cbn [snd] in *; [eauto|].
  destruct (catches e); [|eauto].
  destruct (Hh e s1) as (t2 & E2 & P2).
  destruct (handler e s1) as [[a|e' c'] s2]; cbn [snd] in *;
    exists (t1 ++ t2); rewrite E2, E1, app_assoc, forallb_app, P1, P2; auto.
Qed.

Lemma emits_try_finally {A} (body : M A) final :
  emits_only p body -> emits_only p final ->
  emits_only p (try_finally body final).
Proof.
  intros Hb Hf s. unfold try_finally. destruct (Hb s) as (t1 & E1 & P1).
  destruct (body s) as [[a|e c] s1]; cbn [snd] in *;
    destruct (Hf s1) as (t2 & E2 & P2);
    destruct (final s1) as [[u|e' c'] s2]; cbn [snd] in *;
    exists (t1 ++ t2); rewrite E2, E1, app_assoc, forallb_app, P1, P2; auto.
Qed.

Lemma emits_store name o : emits_only p (store name o).
Proof. intros s. exists []. cbn. now rewrite app_nil_r. Qed.

Lemma emits_load_fast name : emits_only p (load_fast name).
Proof.
  intros s. exists []. unfold load_fast.
  destruct (lookup name (vars s)); cbn; now rewrite app_nil_r.
Qed.

Lemma emits_load_name name : emits_only p (load_name name).
Proof.
  intros s. exists []. unfold load_name.
  destruct (lookup name (vars s)); cbn; now rewrite app_nil_r.
Qed.

Lemma emits_call {A} (body : M A) : emits_only p body -> emits_only p (call body).
Proof.
  intros Hb s. unfold call.
  destruct (Hb {| trace := trace s; vars := [] |}) as (t & E & P).
  destruct (body _) as [o s1]. cbn [snd trace] in *. eauto.
Qed.

Lemma emits_log lvl msg :
  (forall l m, p (Log l m) = true) -> emits_only p (logging_log lvl msg).
Proof.
  intros H. unfold logging_log.
  destruct (root_level <=? levelno lvl)%Z; [apply emits_emit, H|apply emits_ret].
Qed.

End Emits.

Lemma keeps_ret {A} (a : A) : keeps_vars (ret a).
Proof. intros s. reflexivity. Qed.

Lemma keeps_raise {A} e : keeps_vars (@raise A e).
Proof. intros s. reflexivity. Qed.

Lemma keeps_lift {A} (r : result A) : keeps_vars (lift r).
Proof. destruct r; [apply keeps_ret|apply keeps_raise]. Qed.

Lemma keeps_emit ev : keeps_vars (emit ev).
Proof. intros s. reflexivity. Qed.

Lemma keeps_bind {A B} (m : M A) (k : A -> M B) :
  keeps_vars m -> (forall a, keeps_vars (k a)) -> keeps_vars (bind m k).
Proof.
  intros Hm Hk s. unfold bind. specialize (Hm s).
  destruct (m s) as [[a|e c] s1]; cbn [snd] in *; [|exact Hm].
  now rewrite Hk.
Qed.

Lemma keeps_ext {A} ev (r : result A) : keeps_vars (ext ev r).
Proof. apply keeps_bind; [apply keeps_emit|intros; apply keeps_lift]. Qed.

Lemma keeps_try_except {A} (body : M A) catches handler :
  keeps_vars body -> (forall e, keeps_vars (handler e)) ->
  keeps_vars (try_except body catches handler).
Proof.
  intros Hb Hh s. unfold try_except. specialize (Hb s).
  destruct (body s) as [[a|e c] s1]; cbn [snd] in *; [exact Hb|].
  destruct (catches e); [|exact Hb].
  specialize (Hh e s1).
  destruct (handler e s1) as [[a|e' c'] s2]; cbn [snd] in *; congruence.
Qed.

Lemma keeps_call {A} (body : M A) : keeps_vars (call body).
Proof. intros s. unfold call. destruct (body _) as [o s1]. reflexivity. Qed.

Lemma keeps_log lvl msg : keeps_vars (logging_log lvl msg).
Proof.
  unfold logging_log.
  destruct (root_level <=? levelno lvl)%Z; [apply keeps_emit|apply keeps_ret].
Qed.

(** Goals of the two kinds above, for a statement of the script. *)
Ltac script :=
  repeat first
    [ progress intros
    | match goal with
      | |- emits_only _ (if ?b then _ else _) => destruct b
      | |- keeps_vars (if ?b then _ else _) => destruct b
      | |- emits_only _ (bind _ _) => apply emits_bind
      | |- emits_only _ (call _) => apply emits_call
      | |- emits_only _ (try_except _ _ _) => apply emits_try_except
      | |- emits_only _ (try_finally _ _) => apply emits_try_finally
      | |- emits_only _ (ret _) => apply emits_ret
      | |- emits_only _ (lift _) => apply emits_lift
      | |- emits_only _ (store _ _) => apply emits_store
      | |- emits_only _ (load_fast _) => apply emits_load_fast
      | |- emits_only _ (load_name _) => apply emits_load_name
      | |- emits_only _ (sys_exit _) => apply emits_raise
      | |- emits_only _ (logging_info _) => apply emits_log
      | |- emits_only _ (logging_error _) => apply emits_log
      | |- emits_only _ (logging_debug _) => apply emits_log
      | |- emits_only _ (logging_log _ _) => apply emits_log
      | |- emits_only _ (ext _ _) => apply emits_ext
      | |- emits_only _ (emit _) => apply emits_emit
      | |- keeps_vars (bind _ _) => apply keeps_bind
      | |- keeps_vars (call _) => apply keeps_call
      | |- keeps_vars (try_except _ _ _) => apply keeps_try_except
      | |- keeps_vars (ret _) => apply keeps_ret
      | |- keeps_vars (lift _) => apply keeps_lift
      | |- keeps_vars (sys_exit _) => apply keeps_raise
      | |- keeps_vars (logging_info _) => apply keeps_log
      | |- keeps_vars (logging_error _) => apply keeps_log
      | |- keeps_vars (logging_debug _) => apply keeps_log
      | |- keeps_vars (logging_log _ _) => apply keeps_log
      | |- keeps_vars (ext _ _) => apply keeps_ext
      | |- keeps_vars (emit _) => apply keeps_emit
      | |- _ = true => solve [auto | reflexivity]
      end ].

Section ScriptTraces.

Variable w : World.

Lemma get_postgres_dump_emits p token :
  (forall l m, p (Log l m) = true) -> (forall u, p (HttpGet u) = true) ->
  emits_only p (get_postgres_dump w token).
Proof. intros Hl Hg. unfold get_postgres_dump. script. Qed.

Lemma decompress_and_decode_dump_emits p dump :
  (forall l m, p (Log l m) = true) ->
  emits_only p (decompress_and_decode_dump dump).
Proof. intros Hl. unfold decompress_and_decode_dump. script. Qed.

Lemma get_postgres_dump_keeps token : keeps_vars (get_postgres_dump w token).
Proof. apply keeps_call. Qed.

Lemma decompress_and_decode_dump_keeps dump :
  keeps_vars (decompress_and_decode_dump dump).
Proof. apply keeps_call. Qed.

Lemma get_db_records_emits p usr pwd hst db port :
  (forall l m, p (Log l m) = true) ->
  (forall ev, is_pg ev = true -> p ev = true) ->
  emits_only p (get_db_records w usr pwd hst db port).
Proof.
  intros Hl Hp. unfold get_db_records. script.
Qed.

Lemma submit_solution_emits p token data :
  (forall l m, p (Log l m) = true) -> (forall u d, p (HttpPost u d) = true) ->
  emits_only p (submit_solution w token data).
Proof. intros Hl Hg. unfold submit_solution. script. Qed.

Lemma restore_query_submit_emits token dump id :
  emits_only is_work (restore_query_submit w token dump id).
Proof.
  unfold restore_query_submit.
  script;
    first [ apply get_db_records_emits | apply submit_solution_emits ];
    try reflexivity; intros [] H; try reflexivity; discriminate H.
Qed.

Lemma restore_query_submit_keeps token dump id :
  keeps_vars (restore_query_submit w token dump id).
Proof.
  unfold restore_query_submit, get_db_records, submit_solution. script.
Qed.

End ScriptTraces.

(** ** The outer try statement *)

Lemma state_eta s : s = {| trace := trace s; vars := vars s |}.
Proof. now destruct s. Qed.

Lemma bind_run {A B} (m : M A) (k : A -> M B) s :
  bind m k s =
  match m s with
  | (Ret a, s') => k a s'
  | (Raise e c, s') => (Raise e c, s')
  end.
Proof. reflexivity. Qed.

Section TryStatement.

Variable w : World.

Lemma cleanup_bound s id :
  lookup "container" (vars s) = Some (ContainerObj id) ->
  exists o, cleanup w s
            = (o, {| trace := trace s ++ cleanup_events w id; vars := vars s |})
            /\ (forall e, container_stop w id = Err e -> o = Raise e []).
Proof.
  intros H. destruct s as [t vs]. cbn [vars trace] in *.
  unfold cleanup, cleanup_events, stop_events, remove_events.
  unfold bind, load_name, ext, emit, lift, logging_info, logging_log.
  cbn -[py app]. repeat (rewrite H; cbn -[py app]).
  destruct (container_stop w id) as [u|e]; cbn -[py app].
  - repeat (rewrite H; cbn -[py app]).
    destruct (container_remove w id) as [u'|e']; cbn -[py app];
      rewrite <- !app_assoc; cbn [app]; eexists; (split; [reflexivity|discriminate]).
  - rewrite <- !app_assoc. cbn [app]. eexists. split; [reflexivity|].
    intros e' E. now inversion E.
Qed.

Lemma cleanup_unbound s :
  lookup "container" (vars s) = None ->
  cleanup w s = (Raise (NameError "container") [], s).
Proof.
  intros H. unfold cleanup, bind, load_name. rewrite H. reflexivity.
Qed.

Lemma provision_failed token dump ver s e :
  containers_run w (image ver) environment = Err e ->
  provision_restore_query_submit w token dump ver s
  = (Raise e [],
     {| trace := trace s ++ [ContainersRun (image ver) environment ports];
        vars := vars s |}).
Proof.
  intros H. unfold provision_restore_query_submit, bind, ext, emit, lift.
  rewrite H. reflexivity.
Qed.

Lemma provision_succeeded token dump ver s id :
  containers_run w (image ver) environment = Ok id ->
  exists o t,
    provision_restore_query_submit w token dump ver s
    = (o, {| trace := trace s ++ ContainersRun (image ver) environment ports :: t;
             vars := ("container"%string, ContainerObj id) :: vars s |})
    /\ forallb is_work t = true.
Proof.
  intros H. unfold provision_restore_query_submit, bind, ext, emit, lift, store.
  rewrite H. cbn -[restore_query_submit py app image environment].
  match goal with
  | |- context [restore_query_submit w token dump id ?s1] =>
      destruct (restore_query_submit_emits w token dump id s1) as (t & Et & Pt);
      pose proof (restore_query_submit_keeps w token dump id s1) as Ev;
      destruct (restore_query_submit w token dump id s1) as [o s2]
  end.
  cbn [snd trace vars] in Et, Ev. exists o, t. split; [|exact Pt].
  rewrite (state_eta s2), Et, Ev, <- app_assoc. reflexivity.
Qed.

(** The whole statement when provisioning raised: the suite left nothing
    bound, and the [finally] suite fails on its first line. *)
Lemma try_statement_unprovisioned token dump ver s e :
  lookup "container" (vars s) = None ->
  containers_run w (image ver) environment = Err e ->
  try_finally (provision_restore_query_submit w token dump ver) (cleanup w) s
  = (Raise (NameError "container") [e],
     {| trace := trace s ++ [ContainersRun (image ver) environment ports];
        vars := vars s |}).
Proof.
  intros Hv H. unfold try_finally.
  rewrite (provision_failed token dump ver s e H).
  rewrite cleanup_unbound by exact Hv. reflexivity.
Qed.

(** The whole statement when provisioning returned a container. *)
Lemma try_statement_provisioned token dump ver s id :
  containers_run w (image ver) environment = Ok id ->
  exists o t s',
    try_finally (provision_restore_query_submit w token dump ver) (cleanup w) s
    = (o, s')
    /\ trace s' = trace s ++ ContainersRun (image ver) environment ports :: t
                  ++ cleanup_events w id
    /\ forallb is_work t = true.
Proof.
  intros H. unfold try_finally.
  destruct (provision_succeeded token dump ver s id H) as (ob & t & Eb & Pt).
  rewrite Eb.
  match goal with
  | |- context [cleanup w ?s1] =>
      destruct (cleanup_bound s1 id) as (oc & Ec & _); [reflexivity|]
  end.
  rewrite Ec. cbn [trace].
  destruct ob as [u|e c]; destruct oc as [u'|e' c'];
    eexists _, t, _; (split; [reflexivity|]); cbn [trace];
    rewrite <- app_assoc; auto.
Qed.

(** Either the script stops before its [try] statement, having recorded
    prelude events only, or it reaches the statement with no container
    bound. *)
Lemma main_reaches_try argv :
  (forallb is_prelude (trace (snd (main w argv initial))) = true)
  \/ exists token dump ver s,
       main w argv initial
       = try_finally (provision_restore_query_submit w token dump ver)
                     (cleanup w) s
       /\ forallb is_prelude (trace s) = true /\ vars s = [].
Proof.
  unfold main. rewrite !bind_run. unfold lift at 1 3.
  destruct (index argv 1) as [token|e]; [|left; reflexivity].
  cbn [ret]. rewrite !bind_run.
  destruct (get_postgres_dump_emits w is_prelude token
              ltac:(reflexivity) ltac:(reflexivity) initial) as (t1 & E1 & P1).
  pose proof (get_postgres_dump_keeps w token initial) as K1.
  destruct (get_postgres_dump w token initial) as [[encoded|e c] s1];
    cbn [snd] in E1, K1; unfold initial in E1, K1; cbn [trace vars app] in E1, K1;
    [|left; cbn [snd]; now rewrite E1].
  rewrite !bind_run.
  destruct (decompress_and_decode_dump_emits is_prelude encoded
              ltac:(reflexivity) s1) as (t2 & E2 & P2).
  pose proof (decompress_and_decode_dump_keeps encoded s1) as K2.
  destruct (decompress_and_decode_dump encoded s1) as [[dump|e c] s2];
    cbn [snd] in E2, K2;
    [|left; cbn [snd]; now rewrite E2, E1, !forallb_app, P1, P2].
  rewrite !bind_run.
  destruct (db_version_of dump) as [ver|e]; cbn [lift];
    [|left; cbn [raise snd]; now rewrite E2, E1, !forallb_app, P1, P2].
  cbn [ret]. rewrite !bind_run. unfold ext, emit, lift. rewrite !bind_run.
  destruct (docker_from_env w) as [u|e]; cbn [ret raise snd].
  - right. eexists token, dump, ver, _. split; [reflexivity|].
    cbn [trace vars]. split; [|now rewrite K2, K1].
    now rewrite E2, E1, !forallb_app, P1, P2.
  - left. cbn [trace]. now rewrite E2, E1, !forallb_app, P1, P2.
Qed.

End TryStatement.

(** ** Sample worlds *)

(** ** Cleanup (C1, C9) *)

Lemma count_app p a b : count p (a ++ b) = count p a + count p b.
Proof. unfold count. now rewrite filter_app, length_app. Qed.

Lemma count_none p q t :
  forallb p t = true -> (forall ev, p ev = true -> q ev = false) -> count q t = 0.
Proof.
  intros Hp Hq. induction t as [|ev t IH]; [reflexivity|].
  cbn [forallb] in Hp. apply andb_true_iff in Hp as [Hev Ht].
  unfold count in *. cbn [filter]. rewrite (Hq ev Hev). auto.
Qed.

Lemma forallb_In p (t : list event) ev : forallb p t = true -> In ev t -> p ev = true.
Proof. intros H. rewrite forallb_forall in H. apply H. Qed.

Lemma prelude_not_stop ev : is_prelude ev = true -> is_stop ev = false.
Proof. now destruct ev. Qed.
Lemma prelude_not_remove ev : is_prelude ev = true -> is_remove ev = false.
Proof. now destruct ev. Qed.
Lemma work_not_stop ev : is_work ev = true -> is_stop ev = false.
Proof. now destruct ev. Qed.
Lemma work_not_remove ev : is_work ev = true -> is_remove ev = false.
Proof. now destruct ev. Qed.

Lemma cleanup_events_no_run w id img env pts :
  ~ In (ContainersRun img env pts) (cleanup_events w id).
Proof.
  unfold cleanup_events, stop_events, remove_events.
  destruct (container_stop w id); cbn; intuition discriminate.
Qed.

(** A run whose trace shows the provisioning call has reached the [try]
    statement, and the call was made for the image of the dump's version. *)
Lemma run_provisioning w argv img env pts :
  In (ContainersRun img env pts) (snd (run w argv)) ->
  exists token dump ver s,
    main w argv initial
    = try_finally (provision_restore_query_submit w token dump ver) (cleanup w) s
    /\ forallb is_prelude (trace s) = true /\ vars s = []
    /\ img = image ver /\ env = environment /\ pts = ports.
Proof.
  unfold run. intros Hin.
  destruct (main_reaches_try w argv) as [Hpre|(token & dump & ver & s & Em & Hpre & Hv)].
  - destruct (main w argv initial) as [o s']. cbn [snd] in *.
    apply (forallb_In _ _ _ Hpre) in Hin. discriminate Hin.
  - exists token, dump, ver, s. repeat (split; [assumption|]).
    rewrite Em in Hin.
    assert (Hhead : forall t, In (ContainersRun img env pts)
                                 (trace s ++ ContainersRun (image ver) environment ports :: t) ->
                              ~ In (ContainersRun img env pts) t ->
                              img = image ver /\ env = environment /\ pts = ports).
    { intros t Ht Hnot. apply in_app_or in Ht as [Ht|[Ht|Ht]].
      - apply (forallb_In _ _ _ Hpre) in Ht. discriminate Ht.
      - inversion Ht. auto.
      - contradiction. }
    destruct (containers_run w (image ver) environment) as [id|e] eqn:Ec.
    + destruct (try_statement_provisioned w token dump ver s id Ec)
        as (o & t & s' & Et & Etr & Pt).
      rewrite Et in Hin. cbn [snd] in Hin. rewrite Etr in Hin.
      apply (Hhead _ Hin). intros Hn. apply in_app_or in Hn as [Hn|Hn].
      * apply (forallb_In _ _ _ Pt) in Hn. discriminate Hn.
      * exact (cleanup_events_no_run _ _ _ _ _ Hn).
    + rewrite (try_statement_unprovisioned w token dump ver s e) in Hin
        by (rewrite ?Hv; auto).
      cbn [snd trace] in Hin. apply (Hhead _ Hin). intros [].
Qed.

Lemma calls_app a b : calls (a ++ b) = calls a ++ calls b.
Proof. apply filter_app. Qed.

Lemma run_eq w argv o t :
  run w argv = (o, t) ->
  exists s, main w argv initial = (o, s) /\ t = trace s.
Proof.
  unfold run. destruct (main w argv initial) as [o' s]. intros H.
  inversion H. eauto.
Qed.

(** C1 (amended).  In every run whose provisioning call returned a
    container, whatever restore, query and submit did afterwards,
    [container.stop()] is called exactly once; when that call returns,
    [container.remove()] is called exactly once, and the two are the last
    calls of the run, in this order.  When [container.stop()] itself raises,
    it is the last call and [container.remove()] is not called. *)
Theorem cleanup_after_provisioning w argv o t img env pts id :
  run w argv = (o, t) ->
  In (ContainersRun img env pts) t ->
  containers_run w img env = Ok id ->
  count is_stop t = 1
  /\ (forall u, container_stop w id = Ok u ->
        count is_remove t = 1
        /\ exists before, calls t = before ++ [ContainerStop id; ContainerRemove id])
  /\ (forall e, container_stop w id = Err e ->
        count is_remove t = 0
        /\ (exists context, o = Raise e context)
        /\ exists before, calls t = before ++ [ContainerStop id]).
Proof.
  intros Hrun Hin Hc.
  assert (Hin' : In (ContainersRun img env pts) (snd (run w argv)))
    by (rewrite Hrun; exact Hin).
  destruct (run_provisioning w argv img env pts Hin')
    as (token & dump & ver & s & Em & Hpre & Hv & -> & -> & ->).
  destruct (run_eq _ _ _ _ Hrun) as (s' & Es' & ->).
  rewrite Em in Es'.
  destruct (try_statement_provisioned w token dump ver s id Hc)
    as (o1 & tb & s1 & Et & Etr & Pt).
  rewrite Et in Es'. inversion Es'; subst o1 s1. clear Es'.
  rewrite Etr.
  assert (S0 : count is_stop (trace s) = 0)
    by (apply (count_none _ _ _ Hpre), prelude_not_stop).
  assert (R0 : count is_remove (trace s) = 0)
    by (apply (count_none _ _ _ Hpre), prelude_not_remove).
  assert (S1 : count is_stop tb = 0)
    by (apply (count_none _ _ _ Pt), work_not_stop).
  assert (R1 : count is_remove tb = 0)
    by (apply (count_none _ _ _ Pt), work_not_remove).
  change (ContainersRun (image ver) environment ports :: tb ++ cleanup_events w id)
    with ([ContainersRun (image ver) environment ports] ++ tb ++ cleanup_events w id).
  rewrite !count_app, !calls_app, S0, R0, S1, R1.
  unfold cleanup_events, stop_events, remove_events.
  split; [destruct (container_stop w id); reflexivity|].
  split.
  - intros u Hs. rewrite Hs. split; [reflexivity|].
    exists (calls (trace s) ++ ContainersRun (image ver) environment ports :: calls tb).
    rewrite <- app_assoc. reflexivity.
  - intros e Hs. rewrite Hs. split; [reflexivity|]. split.
    + revert Et. unfold try_finally.
      destruct (provision_succeeded w token dump ver s id Hc) as (ob & t' & Eb & _).
      rewrite Eb.
      match goal with
      | |- context [cleanup w ?s1] =>
          destruct (cleanup_bound w s1 id) as (oc & Ec & Hraise); [reflexivity|]
      end.
      rewrite Ec, (Hraise e Hs).
      destruct ob; intros Et; inversion Et; eexists; reflexivity.
    + exists (calls (trace s) ++ ContainersRun (image ver) environment ports :: calls tb).
      rewrite <- app_assoc. reflexivity.
Qed.

(** The statement above, at a run in which every service answers as
    hoped. *)
Lemma cleanup_after_provisioning_witness :
  count is_stop (snd (run happy_world sample_argv)) = 1
  /\ count is_remove (snd (run happy_world sample_argv)) = 1.
Proof.
  destruct (cleanup_after_provisioning happy_world sample_argv
              (fst (run happy_world sample_argv)) (snd (run happy_world sample_argv))
              (image (py "15.3")) environment ports (py "c0ffee"))
    as (Hstop & Hok & _).
  - vm_compute. reflexivity.
  - vm_compute. tauto.
  - reflexivity.
  - split; [exact Hstop|]. exact (proj1 (Hok tt eq_refl)).
Defined.

(** C1 as stated fails: the container is provisioned, restore, query and
    submit all succeed, [container.stop()] raises, and
    [container.remove()] is never called. *)
Lemma cleanup_skips_remove_when_stop_raises :
  let '(o, t) := run stop_fails_world sample_argv in
  In (ContainersRun (image (py "15.3")) environment ports) t
  /\ containers_run stop_fails_world (image (py "15.3")) environment = Ok (py "c0ffee")
  /\ In (Print (py "passed")) t
  /\ count is_stop t = 1
  /\ count is_remove t = 0.
Proof. vm_compute. repeat split; tauto. Qed.

(** C9.  When the provisioning call raises, nothing gets bound to
    [container]: the exception leaves the [try] suite unhandled, the
    [finally] suite raises [NameError] on its first reference to
    [container], with the provisioning failure as its context, and the
    provisioning call is the last thing the run did: no restore, query,
    submit, stop or remove. *)
Theorem provisioning_failure_breaks_cleanup w argv o t img env pts e :
  run w argv = (o, t) ->
  In (ContainersRun img env pts) t ->
  containers_run w img env = Err e ->
  o = Raise (NameError "container") [e]
  /\ (exists before, t = before ++ [ContainersRun img env pts]
                     /\ forallb is_prelude before = true)
  /\ count is_stop t = 0 /\ count is_remove t = 0.
Proof.
  intros Hrun Hin Hc.
  assert (Hin' : In (ContainersRun img env pts) (snd (run w argv)))
    by (rewrite Hrun; exact Hin).
  destruct (run_provisioning w argv img env pts Hin')
    as (token & dump & ver & s & Em & Hpre & Hv & -> & -> & ->).
  destruct (run_eq _ _ _ _ Hrun) as (s' & Es' & ->).
  rewrite Em in Es'.
  rewrite (try_statement_unprovisioned w token dump ver s e) in Es'
    by (rewrite ?Hv; auto).
  inversion Es'; subst. cbn [trace]. split; [reflexivity|]. split; [eauto|].
  rewrite !count_app.
  rewrite (count_none _ _ _ Hpre prelude_not_stop).
  rewrite (count_none _ _ _ Hpre prelude_not_remove). split; reflexivity.
Qed.

(** The statement above, at a run in which the image cannot be started. *)
Lemma provisioning_failure_breaks_cleanup_witness :
  fst (run no_image_world sample_argv)
  = Raise (NameError "container")
          [LibraryError "docker.errors.ImageNotFound"
                        (py "pull access denied for postgres")].
Proof.
  refine (proj1 (provisioning_failure_breaks_cleanup no_image_world sample_argv
                   (fst (run no_image_world sample_argv))
                   (snd (run no_image_world sample_argv))
                   (image (py "15.3")) environment ports _ _ _ _)).
  - vm_compute. reflexivity.
  - vm_compute. tauto.
  - reflexivity.
Defined.

(** ** The query (C2, C7, C10) *)

Ltac run_script :=
  unfold get_db_records, call, try_finally, try_except, bind, ext, emit, lift,
    load_fast, store, logging_error, logging_debug, logging_log, ret, raise;
  cbn -[py app alive_query].


Lemma first_columns_heads rows l :
  first_columns rows = Ok l -> l = map (hd PNone) rows.
Proof.
  revert l. induction rows as [|r rows IH]; intros l H; cbn in H.
  - now inversion H.
  - destruct r as [|v r]; [discriminate H|]. cbn in H.
    destruct (first_columns rows) as [l'|e]; [|discriminate H].
    cbn in H. inversion H. cbn. f_equal. now apply IH.
Qed.



(** C10.  When [psycopg2.connect] raises, [connection] is never bound:
    whether or not the handler catches the exception, the [finally] suite
    raises [UnboundLocalError] (a [NameError]) on [if connection:], so the
    function raises instead of returning [None], and no [close()] is
    reached.  Returning [None] therefore requires that the connection, and
    in fact the cursor too, were created. *)
Theorem connect_failure_raises_unbound_local w usr pwd hst db port s :
  (forall e, psycopg2_connect w usr pwd hst port db = Err e ->
     get_db_records w usr pwd hst db port s
     = (Raise (UnboundLocalError "connection") (if is_Exception e then [] else [e]),
        {| trace :=
             trace s ++ PgConnect usr pwd hst port db
                     :: (if is_Exception e
                         then [Log ERROR
                                   (Text (py "Error while fetching data from PostgreSQL: "
                                          ++ exn_str e))]
                         else []);
           vars := vars s |}))
  /\ (forall s', get_db_records w usr pwd hst db port s = (Ret PNone, s') ->
        psycopg2_connect w usr pwd hst port db = Ok tt
        /\ connection_cursor w = Ok tt).
Proof.
  split.
  - intros e H. destruct s as [t vs]. run_script. rewrite H.
    cbn -[py app alive_query].
    destruct (is_Exception e); cbn -[py app alive_query];
      rewrite <- ?app_assoc; reflexivity.
  - intros s'. destruct s as [t vs]. run_script.
    destruct (psycopg2_connect w usr pwd hst port db) as [[]|e1];
      cbn -[py app alive_query].
    2: { destruct (is_Exception e1); cbn -[py app alive_query]; discriminate. }
    destruct (connection_cursor w) as [[]|e2]; cbn -[py app alive_query].
    2: { destruct (is_Exception e2); cbn -[py app alive_query]; discriminate. }
    auto.
Qed.

(** The statement above, at a server that refuses the connection. *)
Lemma connect_failure_raises_unbound_local_witness :
  fst (get_db_records connection_refused_world username username (py "localhost")
                      db_name 5432 initial)
  = Raise (UnboundLocalError "connection") [].
Proof.
  exact (f_equal fst
           (proj1 (connect_failure_raises_unbound_local connection_refused_world
                     username username (py "localhost") db_name 5432 initial)
                  _ eq_refl)).
Defined.

(** C7 at its failing input.  When the server refuses the connection, the
    error is caught and logged, but the function does not return: the run
    ends with [UnboundLocalError] after the cleanup, and nothing is
    submitted. *)
Lemma connection_error_aborts_run :
  let '(o, t) := run connection_refused_world sample_argv in
  o = Raise (UnboundLocalError "connection") []
  /\ In (Log ERROR (Text (py "Error while fetching data from PostgreSQL: connection refused"))) t
  /\ existsb is_post t = false
  /\ count is_stop t = 1 /\ count is_remove t = 1.
Proof. vm_compute. repeat split; tauto. Qed.

Lemma execute_error_falls_through w usr pwd hst db port s e :
  psycopg2_connect w usr pwd hst port db = Ok tt ->
  connection_cursor w = Ok tt ->
  cursor_execute w alive_query = Err e -> is_Exception e = true ->
  cursor_close w = Ok tt -> connection_close w = Ok tt ->
  fst (get_db_records w usr pwd hst db port s) = Ret PNone.
Proof.
  intros Hc Hcur He Hex Hcc Hco. destruct s as [t vs]. run_script.
  rewrite Hc. cbn -[py app alive_query]. rewrite Hcur. cbn -[py app alive_query].
  rewrite He. cbn -[py app alive_query]. rewrite Hex. cbn -[py app alive_query].
  rewrite Hcc. cbn -[py app alive_query]. rewrite Hco. reflexivity.
Qed.

(** ** The fetch (C5) *)

Ltac run_fetch :=
  unfold get_postgres_dump, call, try_except, bind, ext, emit, lift,
    logging_info, logging_error, logging_log, sys_exit, ret, raise;
  cbn -[py app].




(** ** Decoding (C3, C6) *)

Lemma decode_error_is_Exception e : is_decode_error e -> is_Exception e = true.
Proof.
  intros [->|[[->|[m ->]]|[[m ->]| ->]]]; reflexivity.
Qed.

Lemma decode_dump_errs dump : errs_in is_decode_error (decode_dump dump).
Proof.
  unfold decode_dump. destruct dump; try (cbn; unfold is_decode_error; now auto).
  apply errs_rbind.
  - pose proof (Base64Errors.b64decode_errs s) as H.
    destruct (Base64.b64decode s); cbn in *; unfold is_decode_error; auto.
  - intros raw. apply errs_rbind.
    + rewrite ZlibFacts.decompress_31.
      pose proof (ZlibErrors.gunzip_errs (2 ^ 15) raw) as H.
      destruct (Zlib.gunzip (2 ^ 15) raw); cbn in *; unfold is_decode_error; auto.
    + intros sql. pose proof (Utf8Errors.utf8_decode_errs sql) as H.
      destruct (Utf8.decode sql); cbn in *; unfold is_decode_error; auto.
Qed.

Lemma decompress_and_decode_dump_run dump s :
  decompress_and_decode_dump dump s
  = (match decode_dump dump with Ok t => Ret t | Err e => Raise e [] end,
     decoding_started s).
Proof.
  destruct s as [t vs].
  unfold decompress_and_decode_dump, decoding_started, call, bind, lift,
    logging_info, logging_log, emit, ret, raise.
  cbn -[py app decode_dump]. destruct (decode_dump dump); reflexivity.
Qed.

(** C6 (amended).  The decoder applies base64 decoding, then gzip
    decompression, then UTF-8 decoding, in this order: it returns a text
    exactly when the three stages succeed one after the other.  The gzip
    header is required, not detected: what the decompressor accepts starts
    with the gzip magic number and the deflate method octet, and anything
    else is a [zlib.error].  A failure of any stage is an ordinary exception
    ([TypeError], [ValueError], [binascii.Error], [zlib.error] or
    [UnicodeDecodeError], never [SystemExit]); it leaves the function as
    raised, and, no handler being around the call, ends the run uncaught
    before docker is contacted. *)
Theorem decode_stages_and_errors :
  (forall encoded sql_text,
     decode_dump (PStr encoded) = Ok sql_text <->
     exists raw sql,
       Base64.b64decode encoded = Ok raw
       /\ Zlib.decompress raw (16 + Zlib.MAX_WBITS) = Ok sql
       /\ Utf8.decode sql = Ok sql_text)
  /\ (forall raw sql,
        Zlib.decompress raw (16 + Zlib.MAX_WBITS) = Ok sql ->
        exists rest, raw = x1f :: x8b :: x08 :: rest)
  /\ (forall raw,
        (forall rest, raw <> x1f :: x8b :: x08 :: rest) ->
        exists msg, Zlib.decompress raw (16 + Zlib.MAX_WBITS) = Err (zlib_error msg))
  /\ (forall dump e,
        decode_dump dump = Err e ->
        is_decode_error e /\ is_Exception e = true
        /\ (forall s, decompress_and_decode_dump dump s = (Raise e [], decoding_started s))
        /\ (forall w argv token s1,
              index argv 1 = Ok token ->
              get_postgres_dump w token initial = (Ret dump, s1) ->
              run w argv = (Raise e [], trace (decoding_started s1)))).
Proof.
  split; [|split; [|split]].
  - intros encoded sql_text. unfold decode_dump. split.
    + intros H.
      destruct (Base64.b64decode encoded) as [raw|e] eqn:E1; [|discriminate H].
      cbn [rbind] in H.
      destruct (Zlib.decompress raw (16 + Zlib.MAX_WBITS)) as [sql|e] eqn:E2;
        [|discriminate H].
      cbn [rbind] in H. exists raw, sql. auto.
    + intros (raw & sql & H1 & H2 & H3). rewrite H1. cbn [rbind].
      rewrite H2. exact H3.
  - intros raw sql H. rewrite ZlibFacts.decompress_31 in H.
    exact (ZlibErrors.gunzip_header _ _ _ H).
  - intros raw Hno. rewrite ZlibFacts.decompress_31.
    pose proof (ZlibErrors.gunzip_errs (2 ^ 15) raw) as He.
    destruct (Zlib.gunzip (2 ^ 15) raw) as [sql|e] eqn:E.
    + destruct (ZlibErrors.gunzip_header _ _ _ E) as [rest Hr].
      now destruct (Hno rest).
    + destruct He as [msg ->]. eauto.
  - intros dump e H.
    pose proof (decode_dump_errs dump) as He. rewrite H in He. cbn in He.
    split; [exact He|]. split; [now apply decode_error_is_Exception|]. split.
    + intros s. rewrite decompress_and_decode_dump_run, H. reflexivity.
    + intros w argv token s1 Hi Hg. unfold run, main.
      rewrite bind_run, Hi. cbn [lift ret]. rewrite bind_run, Hg, bind_run.
      rewrite decompress_and_decode_dump_run, H. reflexivity.
Qed.

(** The third part of the statement above, at a string whose length no
    base64 text can have. *)
Lemma decode_stages_and_errors_witness :
  is_Exception
    (binascii_Error "number of data characters cannot be 1 more than a multiple of 4")
  = true.
Proof.
  exact (proj1 (proj2 (proj2 (proj2 (proj2 decode_stages_and_errors))
                        (PStr (py "a")) _ eq_refl))).
Defined.

(** A stream in the zlib framing is refused under
    [wbits = 16 + MAX_WBITS], though accepted under [32 + MAX_WBITS]. *)
Example zlib_framing_refused :
  let data := map nbyte [120; 156; 203; 72; 205; 201; 201; 7; 0; 6; 44; 2; 21]%N in
  Zlib.decompress data (16 + Zlib.MAX_WBITS) = Err (zlib_error "incorrect header check")
  /\ Zlib.decompress data (32 + Zlib.MAX_WBITS) = Ok (map nbyte [104; 101; 108; 108; 111]%N).
Proof. vm_compute. split; reflexivity. Qed.



(** Every text without surrogates has an encoding. *)
Lemma encode_dump_total compress x :
  forallb Utf8.is_scalar x = true -> exists encoded, encode_dump compress x = Ok encoded.
Proof.
  intros H. apply Utf8Facts.encode_scalar in H as [bs H].
  unfold encode_dump. rewrite H. eauto.
Qed.

(** ** The version (C4, C8) *)

(** C8.  When the dump text holds no match of the pattern (the marker
    followed by at least one digit or dot), [re.findall] returns the empty
    list and indexing it raises [IndexError]: an ordinary exception, raised
    outside any handler, that ends the run uncaught (no [sys.exit]) before
    docker is contacted. *)
Theorem missing_version_raises_IndexError dump :
  ~ Re.occurs dump ->
  Re.findall dump = []
  /\ db_version_of dump = Err IndexError
  /\ is_Exception IndexError = true
  /\ (forall w argv token encoded s1,
        index argv 1 = Ok token ->
        get_postgres_dump w token initial = (Ret encoded, s1) ->
        decode_dump encoded = Ok dump ->
        run w argv = (Raise IndexError [], trace (decoding_started s1))
        /\ exit_status (fst (run w argv)) = 1%Z).
Proof.
  intros Hno. pose proof (ReFacts.findall_nil dump Hno) as Hf.
  assert (Hv : db_version_of dump = Err IndexError)
    by (unfold db_version_of; rewrite Hf; reflexivity).
  split; [exact Hf|]. split; [exact Hv|]. split; [reflexivity|].
  intros w argv token encoded s1 Hi Hg Hd.
  assert (E : run w argv = (Raise IndexError [], trace (decoding_started s1))).
  { unfold run, main.
    rewrite bind_run, Hi. cbn [lift ret]. rewrite bind_run, Hg, bind_run.
    rewrite decompress_and_decode_dump_run, Hd, bind_run, Hv. reflexivity. }
  split; [exact E|]. rewrite E. reflexivity.
Qed.

(** The statement above, at a dump whose marker is not followed by a
    version. *)
Lemma missing_version_raises_IndexError_witness :
  db_version_of no_marker_dump = Err IndexError.
Proof.
  refine (proj1 (proj2 (missing_version_raises_IndexError no_marker_dump _))).
  intros Hocc. apply ReFacts.findall_occurs in Hocc. apply Hocc.
  vm_compute. reflexivity.
Defined.

(** C4 (amended).  [db_version] is the first match of the pattern: when
    the first place in the text where the marker is followed by a digit or
    a dot is at [pre], and the digits and dots there are [v], ending at the
    end of the text or at a character that is neither (for instance a
    white-space character), the extractor returns [v], whatever follows.
    In particular it returns "15.3" when the first such place reads
    "Dumped from database version 15.3" followed by white space. *)
Theorem version_is_first_match pre v rest :
  v <> [] ->
  forallb Re.is_verchar v = true ->
  match rest with [] => True | c :: _ => Re.is_verchar c = false end ->
  (forall pre', Re.occurs_at pre' (pre ++ Re.marker ++ v ++ rest) ->
                List.length pre <= List.length pre') ->
  db_version_of (pre ++ Re.marker ++ v ++ rest) = Ok v
  /\ (forall ws rest',
        rest = ws :: rest' -> Re.is_space ws = true -> v = py "15.3" ->
        db_version_of (pre ++ py "Dumped from database version 15.3" ++ ws :: rest')
        = Ok (py "15.3")).
Proof.
  intros Hne Hv Hr Hfirst.
  destruct (ReFacts.findall_first pre v rest Hne Hv Hr Hfirst) as (more & Hf).
  assert (G : db_version_of (pre ++ Re.marker ++ v ++ rest) = Ok v)
    by (unfold db_version_of; rewrite Hf; reflexivity).
  split; [exact G|].
  intros ws rest' -> Hws ->. exact G.
Qed.

(** The statement above, at a dump with two marker lines. *)
Lemma version_is_first_match_witness :
  db_version_of two_markers_dump = Ok (py "15.3").
Proof.
  refine (proj1 (version_is_first_match (py "-- ") (py "15.3")
                   (py " (Debian 15.3-1)" ++ [10%N]
                    ++ py "-- Dumped from database version 14.9" ++ [10%N])
                   _ _ _ _)).
  - discriminate.
  - reflexivity.
  - reflexivity.
  - intros pre' (c & r & _ & E).
    destruct pre' as [|x0 [|x1 [|x2 pre']]]; cbn in *; try lia; discriminate E.
Defined.

Lemma beta_dump_first_spaced pre' v' ws' rest' :
  beta_dump = pre' ++ Re.marker ++ v' ++ ws' :: rest' ->
  v' <> [] -> forallb Re.is_verchar v' = true -> Re.is_space ws' = true ->
  37 <= List.length pre'.
Proof.
  intros E Hne Hv Hws.
  destruct pre' as [|x pre'].
  - exfalso.
    change beta_dump
      with (Re.marker ++ py "16beta1" ++ [10%N]
            ++ py "Dumped from database version 15.3" ++ [10%N]) in E.
    rewrite app_nil_l in E. apply app_inv_head in E.
    destruct v' as [|c1 [|c2 [|c3 v']]]; try contradiction;
      cbn in E; inversion E; subst; cbn in Hv, Hws; discriminate.
  - vm_compute in E. injection E as _ E.
    do 36 (destruct pre' as [|? pre'];
           [exfalso; cbn [app] in E; discriminate E
           |cbn [app] in E; injection E as _ E]).
    cbn [List.length]. lia.
Qed.

(** C4 as stated fails: in [beta_dump] the first version followed by
    white space is "15.3", yet the extractor returns "16", the digits after
    the first marker. *)
Lemma version_before_space_fails : ~ version_before_space_claim.
Proof.
  intros H.
  specialize (H beta_dump (py "Dumped from database version 16beta1" ++ [10%N])
                (py "15.3") 10%N [] eq_refl ltac:(discriminate) eq_refl eq_refl).
  assert (E : db_version_of beta_dump = Ok (py "16")) by (vm_compute; reflexivity).
  rewrite H in E; [discriminate E|].
  intros pre' v' ws' rest' E' Hne Hv Hws.
  exact (beta_dump_first_spaced pre' v' ws' rest' E' Hne Hv Hws).
Qed.

(** C6 as stated fails: a stream without gzip header, which a decoder that
    detects the header would expand, is refused by the script's decoder. *)
Lemma gzip_header_is_required_not_detected :
  auto_detecting_decode (PStr zlib_framed_hello) = Ok (py "hello")
  /\ decode_dump (PStr zlib_framed_hello)
     = Err (zlib_error "incorrect header check").
Proof. vm_compute. split; reflexivity. Qed.

(** * Further properties of the script *)

(** ** [submit_solution] *)

Ltac run_submit :=
  unfold submit_solution, solve_url, call, bind, ext, emit, lift, logging_info,
    logging_error, logging_debug, logging_log, sys_exit, ret, raise;
  cbn -[py app Json.dumps].

Lemma submit_solution_answered w token data s r :
  requests_post w (solve_url token) (Json.dumps data) = Ok r ->
  submit_solution w token data s
  = if (status_code r =? 200)%Z
    then (Ret (text r),
          {| trace := trace s ++ [Log INFO (Text (py "Submitting solution to "
                                                ++ solve_url token));
                                  HttpPost (solve_url token) (Json.dumps data)];
             vars := vars s |})
    else (Raise (SystemExit 1) [],
          {| trace := trace s ++ [Log INFO (Text (py "Submitting solution to "
                                                ++ solve_url token));
                                  HttpPost (solve_url token) (Json.dumps data);
                                  Log ERROR (Text (py "Failed to submit solution to "
                                                   ++ solve_url token
                                                   ++ [10%N] ++ text r))];
             vars := vars s |}).
Proof.
  intros Hp. destruct s as [t vs]. run_submit. unfold solve_url in Hp. rewrite Hp.
  cbn -[py app Json.dumps].
  destruct (status_code r =? 200)%Z; cbn -[py app Json.dumps];
    rewrite <- !app_assoc; reflexivity.
Qed.



(** ** [get_postgres_dump]: a body without [dump] *)

(** X2.  When the fetch is answered 200 with JSON that is not an object, or
    is an object without a [dump] field, [dump['dump']] raises [TypeError]
    or [KeyError('dump')]: an ordinary exception that no handler of the
    function catches, with no error record logged and no [sys.exit]. *)
Theorem fetch_without_dump_field w token s r parsed e :
  requests_get w (problem_url token) = Ok r ->
  status_code r = 200%Z ->
  json_loads w (text r) = Ok parsed ->
  getitem parsed (py "dump") = Err e ->
  get_postgres_dump w token s
  = (Raise e [],
     {| trace := trace s ++ [Log INFO (Text (py "Getting PostgreSQL dump from "
                                             ++ problem_url token));
                             HttpGet (problem_url token)];
        vars := vars s |})
  /\ (e = TypeError \/ e = KeyError (py "dump"))
  /\ (e = KeyError (py "dump") <-> exists items, parsed = PDict items)
  /\ is_Exception e = true.
Proof.
  intros Hget Hs Hj Hd. unfold problem_url in *. destruct s as [t vs].
  cbn [trace vars].
  assert (He : (e = TypeError \/ e = KeyError (py "dump"))
               /\ (e = KeyError (py "dump") <-> exists items, parsed = PDict items)).
  { unfold getitem in Hd. destruct parsed;
      try (inversion Hd; subst; split; [now left|];
           split; [discriminate|intros [items Hi]; discriminate Hi]).
    destruct (find _ items); inversion Hd; subst.
    split; [now right|]. split; eauto. }
  split; [|split; [apply He|split; [apply He|]]].
  - run_fetch. rewrite Hget. cbn -[py app]. rewrite Hs, Z.eqb_refl.
    cbn -[py app]. rewrite Hj. cbn -[py app]. rewrite Hd. cbn -[py app].
    rewrite <- !app_assoc. reflexivity.
  - destruct He as [[-> | ->] _]; reflexivity.
Qed.

(** The statement above, at a body that reports an error instead. *)
Lemma fetch_without_dump_field_witness :
  fst (get_postgres_dump no_dump_field_world (py "abc123") initial)
  = Raise (KeyError (py "dump")) [].
Proof.
  exact (f_equal fst
           (proj1 (fetch_without_dump_field no_dump_field_world (py "abc123") initial
                     _ _ _ eq_refl eq_refl eq_refl eq_refl))).
Defined.

(** ** [get_db_records]: every path *)

Ltac db_cases w :=
  repeat match goal with
         | |- context [match psycopg2_connect w ?a ?b ?c ?d ?e with _ => _ end] =>
             destruct (psycopg2_connect w a b c d e) as [[]|?]
         | |- context [match connection_cursor w with _ => _ end] =>
             destruct (connection_cursor w) as [[]|?]
         | |- context [match cursor_execute w ?q with _ => _ end] =>
             destruct (cursor_execute w q) as [[]|?]
         | |- context [match cursor_fetchall w ?q with _ => _ end] =>
             destruct (cursor_fetchall w q) as [?|?] eqn:?
         | |- context [match first_columns ?r with _ => _ end] =>
             destruct (first_columns r) as [?|?] eqn:?
         | |- context [match cursor_close w with _ => _ end] =>
             destruct (cursor_close w) as [[]|?]
         | |- context [match connection_close w with _ => _ end] =>
             destruct (connection_close w) as [[]|?]
         | |- context [if is_Exception ?e then _ else _] =>
             destruct (is_Exception e) eqn:?
         | |- _ => progress cbn -[py app alive_query]
         end.

(** X3.  When the connection is made but [connection.cursor()] raises,
    [cursor] is never bound: the [finally] suite passes [if connection:],
    raises [UnboundLocalError] on [cursor.close()], and [connection.close()]
    is never called, so the connection is left open. *)
Theorem cursor_failure_leaves_connection_open w usr pwd hst db port s e :
  psycopg2_connect w usr pwd hst port db = Ok tt ->
  connection_cursor w = Err e ->
  get_db_records w usr pwd hst db port s
  = (Raise (UnboundLocalError "cursor") (if is_Exception e then [] else [e]),
     {| trace := trace s ++ PgConnect usr pwd hst port db :: PgCursor
                         :: (if is_Exception e then [query_error_record e] else []);
        vars := vars s |})
  /\ count is_connection_close (trace (snd (get_db_records w usr pwd hst db port s)))
     = count is_connection_close (trace s).
Proof.
  intros Hc Hcur. destruct s as [t vs].
  assert (E : get_db_records w usr pwd hst db port {| trace := t; vars := vs |}
              = (Raise (UnboundLocalError "cursor") (if is_Exception e then [] else [e]),
                 {| trace := t ++ PgConnect usr pwd hst port db :: PgCursor
                               :: (if is_Exception e then [query_error_record e] else []);
                    vars := vs |})).
  { run_script. rewrite Hc. cbn -[py app alive_query]. rewrite Hcur.
    cbn -[py app alive_query].
    destruct (is_Exception e); cbn -[py app alive_query];
      rewrite <- ?app_assoc; reflexivity. }
  split; [exact E|]. rewrite E. cbn [snd trace]. rewrite count_app.
  destruct (is_Exception e); cbn; lia.
Qed.

(** The statement above, at a connection that cannot open a cursor. *)
Lemma cursor_failure_leaves_connection_open_witness :
  fst (get_db_records no_cursor_world username username (py "localhost") db_name
                      5432 initial)
  = Raise (UnboundLocalError "cursor") [].
Proof.
  exact (f_equal fst
           (proj1 (cursor_failure_leaves_connection_open no_cursor_world username
                     username (py "localhost") db_name 5432 initial _
                     eq_refl eq_refl))).
Defined.

(** X4.  Once the connection and the cursor exist, every path through
    [get_db_records] (query or fetch raising or not, rows well formed or
    not) calls [cursor.close()] exactly once; [connection.close()] follows
    exactly once, as the last call, when [cursor.close()] returns, and is
    not called when [cursor.close()] raises. *)
Theorem cursor_and_connection_closed w usr pwd hst db port s :
  psycopg2_connect w usr pwd hst port db = Ok tt ->
  connection_cursor w = Ok tt ->
  exists t,
    trace (snd (get_db_records w usr pwd hst db port s)) = trace s ++ t
    /\ count is_cursor_close t = 1
    /\ (cursor_close w = Ok tt ->
        count is_connection_close t = 1
        /\ exists before, calls t = before ++ [PgCursorClose; PgConnectionClose])
    /\ (forall e, cursor_close w = Err e ->
        count is_connection_close t = 0
        /\ exists context,
             fst (get_db_records w usr pwd hst db port s) = Raise e context).
Proof.
  intros Hc Hcur. destruct s as [t0 vs]. run_script.
  rewrite Hc. cbn -[py app alive_query]. rewrite Hcur. cbn -[py app alive_query].
  db_cases w;
    rewrite <- ?app_assoc; cbn [app];
    (eexists; split; [reflexivity|]);
    (split; [reflexivity|]);
    (split;
     [ intros Hok;
       first [ discriminate Hok
             | split;
               [ reflexivity
               | cbn [calls filter is_log negb];
                 first [ exists [PgConnect usr pwd hst port db; PgCursor;
                                 PgExecute alive_query; PgFetchall];
                         reflexivity
                       | exists [PgConnect usr pwd hst port db; PgCursor;
                                 PgExecute alive_query];
                         reflexivity ] ] ]
     | intros e' He';
       first [ discriminate He'
             | split; [reflexivity|]; inversion He'; subst; eexists; reflexivity ] ]).
Qed.

(** The statement above, at a query that fails for want of the table. *)
Lemma cursor_and_connection_closed_witness :
  exists t,
    trace (snd (get_db_records no_table_world username username (py "localhost")
                               db_name 5432 initial)) = [] ++ t
    /\ count is_cursor_close t = 1.
Proof.
  destruct (cursor_and_connection_closed no_table_world username username
              (py "localhost") db_name 5432 initial eq_refl eq_refl)
    as (t & E & Hc & _).
  exists t. split; [exact E|exact Hc].
Defined.

Lemma first_columns_nonempty rows : forall l,
  first_columns rows = Ok l -> Forall (fun row => row <> []) rows.
Proof.
  induction rows as [|r rows IH]; intros l Hf; [constructor|].
  cbn in Hf. destruct r as [|x r]; [discriminate Hf|]. cbn in Hf.
  destruct (first_columns rows) as [l'|e'] eqn:E; [|discriminate Hf].
  constructor; [discriminate|]. exact (IH l' eq_refl).
Qed.

(** X5.  Whatever the database does, a value returned by [get_db_records]
    is either [None], after an error record was logged for an exception
    raised once the cursor existed, or a dict with the single key
    [alive_ssns] holding the first column of every fetched row, in order;
    it is never a partial list. *)
Theorem get_db_records_returns_none_or_alive_ssns w usr pwd hst db port s v s' :
  get_db_records w usr pwd hst db port s = (Ret v, s') ->
  psycopg2_connect w usr pwd hst port db = Ok tt
  /\ connection_cursor w = Ok tt
  /\ cursor_close w = Ok tt /\ connection_close w = Ok tt
  /\ ((v = PNone
       /\ exists e, is_Exception e = true /\ In (query_error_record e) (trace s'))
      \/ (exists rows,
            cursor_fetchall w alive_query = Ok rows
            /\ v = PDict [(py "alive_ssns", PList (map (hd PNone) rows))]
            /\ Forall (fun row => row <> []) rows)).
Proof.
  destruct s as [t0 vs]. run_script. unfold query_error_record.
  db_cases w; intros H; inversion H; subst; clear H;
    repeat (split; [reflexivity|]).
  - right. eexists. split; [reflexivity|].
    match goal with
    | Hf : first_columns ?rows = Ok ?l |- _ =>
        rewrite (first_columns_heads rows l Hf); split; [reflexivity|];
        exact (first_columns_nonempty rows l Hf)
    end.
  - left. split; [reflexivity|]. eexists. split; [eassumption|].
    cbn [trace]. rewrite !in_app_iff. cbn. tauto.
  - left. split; [reflexivity|]. eexists. split; [eassumption|].
    cbn [trace]. rewrite !in_app_iff. cbn. tauto.
  - left. split; [reflexivity|]. eexists. split; [eassumption|].
    cbn [trace]. rewrite !in_app_iff. cbn. tauto.
Qed.

(** The statement above, at the sample table. *)
Lemma get_db_records_returns_none_or_alive_ssns_witness :
  psycopg2_connect table_world username username (py "localhost") 5432 db_name = Ok tt.
Proof.
  exact (proj1 (get_db_records_returns_none_or_alive_ssns table_world username
                  username (py "localhost") db_name 5432 initial _ _ eq_refl)).
Defined.

(** ** The restore *)

Ltac run_restore :=
  unfold restore_query_submit, try_except, bind, ext, emit, lift, logging_info,
    logging_error, logging_log, sys_exit, ret, raise;
  cbn -[py app get_db_records submit_solution Json.dumps Utf8.encode username db_name].

Lemma cleanup_done w s id :
  lookup "container" (vars s) = Some (ContainerObj id) ->
  container_stop w id = Ok tt -> container_remove w id = Ok tt ->
  cleanup w s
  = (Ret tt, {| trace := trace s ++ stop_events id ++ remove_events id;
                vars := vars s |}).
Proof.
  intros H Hs Hr. destruct s as [t vs]. cbn [vars trace] in *.
  unfold cleanup, stop_events, remove_events.
  unfold bind, load_name, ext, emit, lift, logging_info, logging_log.
  cbn -[py app]. repeat (rewrite H; cbn -[py app]).
  rewrite Hs. cbn -[py app]. repeat (rewrite H; cbn -[py app]).
  rewrite Hr. cbn -[py app]. rewrite <- !app_assoc. reflexivity.
Qed.




(** X7.  The handler around the restore catches
    [subprocess.CalledProcessError] only.  When [subprocess.run] raises it,
    the script logs an error record ending with the exception's text and
    raises [SystemExit(1)]; when it raises anything else (no [docker]
    program, for instance), the exception leaves the suite as it is, with no
    error record and no [sys.exit].  In both cases nothing is queried or
    submitted. *)
Theorem restore_handler_catches_CalledProcessError_only w token dump id s input e :
  Utf8.encode dump = Ok input ->
  subprocess_run w (restore_args id) input = Err e ->
  restore_query_submit w token dump id s
  = match e with
    | CalledProcessError _ =>
        (Raise (SystemExit 1) [e],
         {| trace := trace s ++ restore_started id input
                     ++ [Log ERROR (Text (py "Failed to restore PostgreSQL dump to "
                                          ++ id ++ [10%N] ++ exn_str e))];
            vars := vars s |})
    | _ => (Raise e [], {| trace := trace s ++ restore_started id input;
                           vars := vars s |})
    end.
Proof.
  intros He Hsub. destruct s as [t vs]. run_restore.
  rewrite He. cbn -[py app username db_name].
  unfold restore_args in Hsub. rewrite Hsub.
  unfold restore_started, restore_args.
  destruct e; cbn -[py app username db_name]; rewrite <- !app_assoc; reflexivity.
Qed.

(** The statement above, on a machine without the [docker] program. *)
Lemma restore_handler_catches_CalledProcessError_only_witness :
  fst (restore_query_submit no_docker_binary_world (py "abc123") sample_dump
                            (py "c0ffee") initial)
  = Raise (LibraryError "FileNotFoundError" (py "No such file or directory: 'docker'")) [].
Proof.
  refine (f_equal fst
            (restore_handler_catches_CalledProcessError_only no_docker_binary_world
               (py "abc123") sample_dump (py "c0ffee") initial
               (match Utf8.encode sample_dump with Ok b => b | Err _ => [] end)
               _ _ eq_refl)).
  vm_compute. reflexivity.
Defined.

(** ** A failed query is submitted as [null] *)

Lemma get_db_records_execute_error w usr pwd hst db port s e :
  psycopg2_connect w usr pwd hst port db = Ok tt ->
  connection_cursor w = Ok tt ->
  cursor_execute w alive_query = Err e -> is_Exception e = true ->
  cursor_close w = Ok tt -> connection_close w = Ok tt ->
  get_db_records w usr pwd hst db port s
  = (Ret PNone,
     {| trace := trace s ++ [PgConnect usr pwd hst port db; PgCursor;
                             PgExecute alive_query; query_error_record e;
                             PgCursorClose; PgConnectionClose];
        vars := vars s |}).
Proof.
  intros Hc Hcur He Hex Hcc Hco. destruct s as [t vs]. run_script.
  unfold query_error_record.
  rewrite Hc. cbn -[py app alive_query]. rewrite Hcur. cbn -[py app alive_query].
  rewrite He. cbn -[py app alive_query]. rewrite Hex. cbn -[py app alive_query].
  rewrite Hcc. cbn -[py app alive_query]. rewrite Hco. cbn -[py app alive_query].
  rewrite <- !app_assoc. reflexivity.
Qed.

(** X8.  When the restore succeeds and the query then raises an ordinary
    exception, the run does not stop: [get_db_records] returns [None], the
    script logs it and posts the JSON text [null] as the solution, and when
    that is answered 200 it prints the response and the suite ends
    normally. *)
Theorem failed_query_submits_null w token dump id s input e r :
  Utf8.encode dump = Ok input ->
  subprocess_run w (restore_args id) input = Ok {| returncode := 0 |} ->
  psycopg2_connect w username username (py "localhost") 5432 db_name = Ok tt ->
  connection_cursor w = Ok tt ->
  cursor_execute w alive_query = Err e -> is_Exception e = true ->
  cursor_close w = Ok tt -> connection_close w = Ok tt ->
  requests_post w (solve_url token) (py "null") = Ok r -> status_code r = 200%Z ->
  restore_query_submit w token dump id s
  = (Ret tt,
     {| trace :=
          trace s ++ restore_started id input
          ++ [Log INFO (Text (py "Restored PostgreSQL dump to " ++ id));
              PgConnect username username (py "localhost") 5432 db_name; PgCursor;
              PgExecute alive_query; query_error_record e;
              PgCursorClose; PgConnectionClose;
              Log INFO (Object PNone);
              Log INFO (Text (py "Submitting solution to " ++ solve_url token));
              HttpPost (solve_url token) (py "null");
              Print (text r)];
        vars := vars s |}).
Proof.
  intros He Hsub Hc Hcur Hex HE Hcc Hco Hp Hs. destruct s as [t vs].
  unfold restore_query_submit.
  repeat rewrite bind_run.
  run_restore. rewrite He. cbn -[py app get_db_records submit_solution username db_name].
  unfold restore_args in Hsub. rewrite Hsub.
  cbn -[py app get_db_records submit_solution username db_name].
  rewrite (get_db_records_execute_error w _ _ _ _ _ _ e Hc Hcur Hex HE Hcc Hco).
  cbn -[py app submit_solution username db_name].
  change (Json.dumps PNone) with (py "null") in *.
  rewrite (submit_solution_answered w token PNone _ r Hp), Hs, Z.eqb_refl.
  cbn -[py app username db_name].
  unfold restore_started, restore_args. rewrite <- !app_assoc. reflexivity.
Qed.

(** The statement above, at a dump that did not create the table. *)
Lemma failed_query_submits_null_witness :
  fst (restore_query_submit no_table_world (py "abc123") sample_dump (py "c0ffee")
                            initial)
  = Ret tt.
Proof.
  refine (f_equal fst
            (failed_query_submits_null no_table_world (py "abc123") sample_dump
               (py "c0ffee") initial
               (match Utf8.encode sample_dump with Ok b => b | Err _ => [] end)
               _ _ _ eq_refl eq_refl eq_refl eq_refl eq_refl eq_refl eq_refl eq_refl
               eq_refl)).
  vm_compute. reflexivity.
Defined.

(** ** The bytes given to [psql] *)

Module Utf8Back.
Import Utf8 Utf8Facts.

Local Open Scope N_scope.

Ltac props :=
  repeat match goal with
         | H : (_ && _)%bool = true |- _ => apply andb_true_iff in H as [? ?]
         | H : (_ || _)%bool = true |- _ => apply orb_true_iff in H as [?|?]
         | H : negb _ = true |- _ => apply negb_true_iff in H
         | H : (_ <=? _) = true |- _ => apply N.leb_le in H
         | H : (_ <=? _) = false |- _ => apply N.leb_gt in H
         | H : (_ <? _) = true |- _ => apply N.ltb_lt in H
         | H : (_ <? _) = false |- _ => apply N.ltb_ge in H
         | H : (_ =? _) = true |- _ => apply N.eqb_eq in H
         | H : (_ =? _) = false |- _ => apply N.eqb_neq in H
         end.

Ltac front :=
  split; [reflexivity|]; split; [reflexivity|];
  split; [|split; [assumption|cbn [List.length]; lia]].

Ltac octet b :=
  transitivity (nbyte (Byte.to_N b)); [f_equal; arith|apply nbyte_to_N].

(** A successful decoding reads one well-formed character off the front:
    its octets are those the encoder writes for it. *)
Lemma decode_front bs s :
  decode bs = Ok s ->
  (bs = [] /\ s = [])
  \/ exists c front rest s',
       bs = front ++ rest /\ s = c :: s' /\ encode_cp c = Some front
       /\ decode rest = Ok s' /\ (List.length rest < List.length bs)%nat.
Proof.
  rewrite decode_eq. destruct bs as [|b0 r0]; intros H.
  { left. now inversion H. }
  right. cbv zeta in H. pose proof (to_N_lt_256 b0) as B0.
  destruct (Byte.to_N b0 <? 128) eqn:C1.
  { destruct (decode r0) as [s'|] eqn:D; [|discriminate H]. inversion H; subst.
    props. exists (Byte.to_N b0), [b0], r0, s'. front.
    unfold encode_cp. decide_if. now rewrite nbyte_to_N. }
  destruct ((194 <=? Byte.to_N b0) && (Byte.to_N b0 <=? 223)) eqn:C2.
  { destruct r0 as [|b1 r1]; [discriminate H|].
    pose proof (to_N_lt_256 b1) as B1. unfold is_cont in H.
    destruct ((128 <=? Byte.to_N b1) && (Byte.to_N b1 <=? 191)) eqn:K1;
      [|discriminate H].
    destruct (decode r1) as [s'|] eqn:D; [|discriminate H]. inversion H; subst.
    props. eexists _, [b0; b1], r1, s'. front.
    unfold encode_cp. repeat decide_if.
    do 2 f_equal; [octet b0|f_equal; octet b1]. }
  destruct ((224 <=? Byte.to_N b0) && (Byte.to_N b0 <=? 239)) eqn:C3.
  { destruct r0 as [|b1 [|b2 r2]]; try discriminate H.
    pose proof (to_N_lt_256 b1) as B1. pose proof (to_N_lt_256 b2) as B2.
    unfold is_cont in H.
    match type of H with (if ?c then _ else _) = _ => destruct c eqn:K end;
      [|discriminate H].
    destruct (decode r2) as [s'|] eqn:D; [|discriminate H]. inversion H; subst.
    props; try (exfalso; lia);
      (eexists _, [b0; b1; b2], r2, s'; front;
       unfold encode_cp; repeat decide_if;
       do 2 f_equal; [octet b0|f_equal; [octet b1|f_equal; octet b2]]). }
  destruct ((240 <=? Byte.to_N b0) && (Byte.to_N b0 <=? 244)) eqn:C4;
    [|discriminate H].
  destruct r0 as [|b1 [|b2 [|b3 r3]]]; try discriminate H.
  pose proof (to_N_lt_256 b1) as B1. pose proof (to_N_lt_256 b2) as B2.
  pose proof (to_N_lt_256 b3) as B3.
  unfold is_cont in H.
  match type of H with (if ?c then _ else _) = _ => destruct c eqn:K end;
    [|discriminate H].
  destruct (decode r3) as [s'|] eqn:D; [|discriminate H]. inversion H; subst.
  props; try (exfalso; lia);
    (eexists _, [b0; b1; b2; b3], r3, s'; front;
     unfold encode_cp; repeat decide_if;
     do 2 f_equal;
     [octet b0|f_equal; [octet b1|f_equal; [octet b2|f_equal; octet b3]]]).
Qed.

(** Strict decoding is injective: encoding the decoded text gives the
    octets back. *)
Lemma encode_decode bs :
  forall s, decode bs = Ok s -> encode s = Ok bs.
Proof.
  induction bs as [bs IH] using (induction_ltof1 _ (@List.length byte)).
  unfold ltof in IH. intros s H.
  destruct (decode_front bs s H) as [[-> ->]|(c & front & rest & s' & -> & -> & Hc & Hd & Hl)];
    [reflexivity|].
  cbn [encode]. rewrite Hc, (IH rest Hl s' Hd). reflexivity.
Qed.

End Utf8Back.

(** ** Whole runs *)

Lemma emits_weaken {A} (p q : event -> bool) (m : M A) :
  (forall ev, p ev = true -> q ev = true) -> emits_only p m -> emits_only q m.
Proof.
  intros Hpq Hm s. destruct (Hm s) as (t & E & P). exists t. split; [exact E|].
  rewrite forallb_forall in *. auto.
Qed.

(** The rule for [bind] that looks at the value the first part returned. *)
Lemma emits_bind_ret {A B} p (m : M A) (k : A -> M B) :
  emits_only p m ->
  (forall a s s1, m s = (Ret a, s1) -> emits_only p (k a)) ->
  emits_only p (bind m k).
Proof.
  intros Hm Hk s. rewrite bind_run. destruct (Hm s) as (t1 & E1 & P1).
  destruct (m s) as [[a|e c] s1] eqn:Em; cbn [snd] in *.
  - destruct (Hk a s s1 Em s1) as (t2 & E2 & P2). exists (t1 ++ t2).
    rewrite E2, E1, app_assoc, forallb_app, P1, P2. auto.
  - exists t1. auto.
Qed.

Lemma lift_returns {A} (r : result A) a s s1 : lift r s = (Ret a, s1) -> r = Ok a.
Proof. destruct r; cbn; intros H; now inversion H. Qed.

Lemma ext_returns {A} ev (r : result A) a s s1 :
  ext ev r s = (Ret a, s1) -> r = Ok a.
Proof.
  unfold ext. rewrite bind_run. unfold emit. apply lift_returns.
Qed.

Lemma get_postgres_dump_returns w token s encoded s1 :
  get_postgres_dump w token s = (Ret encoded, s1) ->
  exists r parsed,
    requests_get w (problem_url token) = Ok r /\ status_code r = 200%Z
    /\ json_loads w (text r) = Ok parsed
    /\ getitem parsed (py "dump") = Ok encoded.
Proof.
  destruct s as [t vs]. run_fetch. unfold problem_url.
  destruct (requests_get w _) as [r|e] eqn:Hg; cbn -[py app]; [|discriminate].
  destruct (status_code r =? 200)%Z eqn:Hs; cbn -[py app]; [|discriminate].
  destruct (json_loads w (text r)) as [parsed|e] eqn:Hj; cbn -[py app].
  - destruct (getitem parsed _) eqn:Hd; cbn -[py app]; intros H; inversion H; subst.
    exists r, parsed. apply Z.eqb_eq in Hs. auto.
  - destruct e; discriminate.
Qed.

Lemma decompress_and_decode_dump_returns encoded s dump s1 :
  decompress_and_decode_dump encoded s = (Ret dump, s1) ->
  decode_dump encoded = Ok dump.
Proof.
  unfold decompress_and_decode_dump, call, bind, logging_info, logging_log, emit, lift.
  cbn -[py app decode_dump].
  destruct (decode_dump encoded); intros H; now inversion H.
Qed.

(** What [decode_dump] returns is the strict UTF-8 reading of the gunzipped
    octets, so encoding it gives these octets back. *)
Lemma decode_dump_octets encoded dump :
  decode_dump encoded = Ok dump ->
  exists sql, sql_octets encoded sql /\ Utf8.encode dump = Ok sql.
Proof.
  destruct encoded as [| | | |s| |]; try discriminate. cbn [decode_dump].
  destruct (Base64.b64decode s) as [raw|e] eqn:Hb; [|discriminate].
  cbn [rbind].
  destruct (Zlib.decompress raw (16 + Zlib.MAX_WBITS)) as [sql|e] eqn:Hz;
    [|discriminate].
  cbn [rbind]. intros Hu. exists sql. split.
  - exists s, raw. auto.
  - now apply Utf8Back.encode_decode.
Qed.

(** Either the script stops before its [try] statement, or it reaches the
    statement with the text decoded from the download and the version found
    in it. *)
Lemma main_downloads w argv :
  ((exists e c, fst (main w argv initial) = Raise e c)
   /\ forallb is_prelude (trace (snd (main w argv initial))) = true)
  \/ exists token encoded dump ver s,
       downloads w argv token encoded /\ decode_dump encoded = Ok dump
       /\ db_version_of dump = Ok ver
       /\ main w argv initial
          = try_finally (provision_restore_query_submit w token dump ver)
                        (cleanup w) s
       /\ forallb is_prelude (trace s) = true /\ vars s = [].
Proof.
  unfold main. rewrite !bind_run. unfold lift at 1 3 5.
  destruct (index argv 1) as [token|e] eqn:Ha; [|left; split; [eexists _, _|]; reflexivity].
  cbn [ret]. rewrite !bind_run.
  destruct (get_postgres_dump_emits w is_prelude token
              ltac:(reflexivity) ltac:(reflexivity) initial) as (t1 & E1 & P1).
  pose proof (get_postgres_dump_keeps w token initial) as K1.
  destruct (get_postgres_dump w token initial) as [[encoded|e c] s1] eqn:Hg;
    cbn [snd] in E1, K1; unfold initial in E1, K1; cbn [trace vars app] in E1, K1;
    [|left; split; [eexists _, _; reflexivity|]; cbn [snd]; now rewrite E1].
  apply get_postgres_dump_returns in Hg.
  rewrite !bind_run.
  destruct (decompress_and_decode_dump_emits is_prelude encoded
              ltac:(reflexivity) s1) as (t2 & E2 & P2).
  pose proof (decompress_and_decode_dump_keeps encoded s1) as K2.
  destruct (decompress_and_decode_dump encoded s1) as [[dump|e c] s2] eqn:Hd;
    cbn [snd] in E2, K2;
    [|left; split; [eexists _, _; reflexivity|];
     cbn [snd]; now rewrite E2, E1, !forallb_app, P1, P2].
  apply decompress_and_decode_dump_returns in Hd.
  rewrite !bind_run.
  destruct (db_version_of dump) as [ver|e] eqn:Hv; cbn [lift];
    [|left; split; [eexists _, _; reflexivity|];
     cbn [raise snd]; now rewrite E2, E1, !forallb_app, P1, P2].
  cbn [ret]. rewrite !bind_run. unfold ext, emit, lift. rewrite !bind_run.
  destruct (docker_from_env w) as [u|e]; cbn [ret raise snd].
  - right. eexists token, encoded, dump, ver, _.
    split; [split; assumption|]. split; [assumption|]. split; [assumption|].
    split; [reflexivity|].
    cbn [trace vars]. split; [|now rewrite K2, K1].
    now rewrite E2, E1, !forallb_app, P1, P2.
  - left. split; [eexists _, _; reflexivity|].
    cbn [trace]. now rewrite E2, E1, !forallb_app, P1, P2.
Qed.

Lemma restores_only_refl id sql :
  restores_only id sql (SubprocessRun (restore_args id) sql) = true.
Proof.
  unfold restores_only.
  destruct (list_eq_dec pystr_eq_dec (restore_args id) (restore_args id));
    [|congruence].
  destruct (list_eq_dec Byte.byte_eq_dec sql sql); congruence.
Qed.

Lemma restores_only_inv id sql args input :
  restores_only id sql (SubprocessRun args input) = true ->
  args = restore_args id /\ input = sql.
Proof.
  unfold restores_only.
  destruct (list_eq_dec pystr_eq_dec args (restore_args id)); [|discriminate].
  destruct (list_eq_dec Byte.byte_eq_dec input sql); [auto|discriminate].
Qed.

Lemma restore_query_submit_restores w token dump id sql :
  Utf8.encode dump = Ok sql ->
  emits_only (restores_only id sql) (restore_query_submit w token dump id).
Proof.
  intros H. unfold restore_query_submit.
  do 3 (apply emits_bind; [script|intros _]).
  apply emits_bind.
  - apply emits_try_except; [|script].
    apply emits_bind_ret; [script|]. intros input s s1 Hl.
    apply lift_returns in Hl. rewrite H in Hl. injection Hl as <-.
    apply emits_bind; [apply emits_ext, restores_only_refl|script].
  - intros _. apply emits_bind.
    + apply get_db_records_emits; [reflexivity|].
      intros [] Hp; try reflexivity; discriminate Hp.
    + intros results. apply emits_bind; [script|intros _].
      apply emits_bind; [|script].
      apply submit_solution_emits; reflexivity.
Qed.

Lemma cleanup_emits w p :
  (forall l m, p (Log l m) = true) ->
  (forall id, p (ContainerStop id) = true) ->
  (forall id, p (ContainerRemove id) = true) ->
  emits_only p (cleanup w).
Proof. intros Hl Hs Hr. unfold cleanup. script. Qed.

(** X9.  Whatever a run hands to [subprocess.run] is the restore command
    line for the container it started, with the gunzipped octets of the
    downloaded dump as input: decoding them as UTF-8 and encoding the text
    again gives the same octets, so [dump.encode()] cannot fail and [psql]
    reads what the archive held. *)
Theorem psql_reads_the_gunzipped_dump w argv args input :
  In (SubprocessRun args input) (snd (run w argv)) ->
  exists token encoded dump ver id,
    downloads w argv token encoded /\ sql_octets encoded input
    /\ Utf8.decode input = Ok dump /\ db_version_of dump = Ok ver
    /\ containers_run w (image ver) environment = Ok id
    /\ args = restore_args id.
Proof.
  unfold run. intros Hin.
  destruct (main_downloads w argv)
    as [[_ P]|(token & encoded & dump & ver & s & Hd & Hdec & Hv & Hm & P & V)].
  - destruct (main w argv initial) as [o s]. cbn [snd] in *.
    apply (forallb_In _ _ _ P) in Hin. discriminate Hin.
  - rewrite Hm in Hin. clear Hm.
    destruct (decode_dump_octets _ _ Hdec) as (sql & Hsql & Hu).
    assert (Hback : Utf8.decode sql = Ok dump).
    { destruct Hsql as (s0 & raw & -> & Hb & Hz). cbn [decode_dump] in Hdec.
      rewrite Hb in Hdec. cbn [rbind] in Hdec. rewrite Hz in Hdec. exact Hdec. }
    destruct (containers_run w (image ver) environment) as [id|e] eqn:Hc.
    + assert (E : emits_only (restores_only id sql)
                    (try_finally (provision_restore_query_submit w token dump ver)
                                 (cleanup w))).
      { apply emits_try_finally; [|apply cleanup_emits; reflexivity].
        unfold provision_restore_query_submit.
        apply emits_bind_ret; [apply emits_ext; reflexivity|].
        intros id' s0 s1 Hr. apply ext_returns in Hr. rewrite Hc in Hr.
        injection Hr as <-.
        apply emits_bind; [script|intros _].
        now apply restore_query_submit_restores. }
      destruct (E s) as (t & Et & Pt).
      destruct (try_finally _ _ s) as [o s']. cbn [snd] in *.
      rewrite Et in Hin. apply in_app_or in Hin as [Hin|Hin].
      * apply (forallb_In _ _ _ P) in Hin. discriminate Hin.
      * apply (forallb_In _ _ _ Pt) in Hin.
        apply restores_only_inv in Hin as [-> ->].
        exists token, encoded, dump, ver, id. auto 10.
    + exfalso.
      rewrite (try_statement_unprovisioned w token dump ver s e) in Hin.
      * cbn [snd trace] in Hin. apply in_app_or in Hin as [Hin|[Hin|[]]].
        -- apply (forallb_In _ _ _ P) in Hin. discriminate Hin.
        -- discriminate Hin.
      * now rewrite V.
      * exact Hc.
Qed.

(** The statement above, at a run where every service answers as hoped. *)
Lemma psql_reads_the_gunzipped_dump_witness :
  exists token encoded dump ver id,
    downloads happy_world sample_argv token encoded
    /\ sql_octets encoded
         (match Utf8.encode sample_dump with Ok b => b | Err _ => [] end)
    /\ Utf8.decode (match Utf8.encode sample_dump with Ok b => b | Err _ => [] end)
       = Ok dump
    /\ db_version_of dump = Ok ver
    /\ containers_run happy_world (image ver) environment = Ok id
    /\ restore_args (py "c0ffee") = restore_args id.
Proof.
  apply (psql_reads_the_gunzipped_dump happy_world sample_argv
           (restore_args (py "c0ffee"))
           (match Utf8.encode sample_dump with Ok b => b | Err _ => [] end)).
  vm_compute. repeat (first [left; reflexivity|right]).
Defined.

(** ** The log level *)

Lemma emits_log_at p lvl msg :
  ((root_level <=? levelno lvl)%Z = true -> p (Log lvl msg) = true) ->
  emits_only p (logging_log lvl msg).
Proof.
  intros H. unfold logging_log.
  destruct (root_level <=? levelno lvl)%Z; [apply emits_emit; auto|apply emits_ret].
Qed.

Ltac at_level :=
  apply emits_log_at;
  let H := fresh in
  intros H; first [reflexivity|vm_compute in H; discriminate H].

Ltac script_levels :=
  repeat first
    [ progress intros
    | match goal with
      | |- emits_only _ (logging_info _) => unfold logging_info; at_level
      | |- emits_only _ (logging_error _) => unfold logging_error; at_level
      | |- emits_only _ (logging_debug _) => unfold logging_debug; at_level
      | |- emits_only _ (logging_log _ _) => at_level
      | |- emits_only _ (if ?b then _ else _) => destruct b
      | |- emits_only _ (bind _ _) => apply emits_bind
      | |- emits_only _ (call _) => apply emits_call
      | |- emits_only _ (try_except _ _ _) => apply emits_try_except
      | |- emits_only _ (try_finally _ _) => apply emits_try_finally
      | |- emits_only _ (ret _) => apply emits_ret
      | |- emits_only _ (lift _) => apply emits_lift
      | |- emits_only _ (store _ _) => apply emits_store
      | |- emits_only _ (load_fast _) => apply emits_load_fast
      | |- emits_only _ (load_name _) => apply emits_load_name
      | |- emits_only _ (sys_exit _) => apply emits_raise
      | |- emits_only _ (ext _ _) => apply emits_ext
      | |- emits_only _ (emit _) => apply emits_emit
      | |- _ = true => reflexivity
      end ].

(** X10.  No run writes a log record of level [DEBUG]: the level passed to
    [logging.basicConfig] is the one stored under ['info'], so the two
    [logging.debug] calls (after the connection is closed, after the
    solution is submitted) leave no trace, whatever the services answer. *)
Theorem debug_records_are_never_written w argv :
  forallb not_debug (snd (run w argv)) = true.
Proof.
  assert (E : emits_only not_debug (main w argv)).
  { unfold main, get_postgres_dump, decompress_and_decode_dump,
      provision_restore_query_submit, restore_query_submit, get_db_records,
      submit_solution, cleanup.
    script_levels. }
  unfold run. destruct (E initial) as (t & Et & Pt).
  destruct (main w argv initial) as [o s]. cbn [snd trace initial app] in *.
  now rewrite Et.
Qed.

(** ** The image *)

Lemma match_here_group s v r :
  Re.match_here s = Some (v, r) -> v <> [] /\ forallb Re.is_verchar v = true.
Proof.
  unfold Re.match_here. destruct (Re.match_literal Re.marker s) as [s'|]; [|discriminate].
  destruct (Re.span Re.is_verchar s') as [v' r'] eqn:E.
  destruct v' as [|c v']; [discriminate|]. intros H. inversion H; subst.
  split; [discriminate|].
  pose proof (ReFacts.span_all Re.is_verchar s') as Hs. now rewrite E in Hs.
Qed.

(** Every match holds at least one character, digits and dots only. *)
Lemma findall_groups s :
  forall skip v, In v (Re.findall_from skip s) ->
                 v <> [] /\ forallb Re.is_verchar v = true.
Proof.
  induction s as [|c s IH]; intros skip v; cbn [Re.findall_from]; [contradiction|].
  destruct skip as [|k]; [|apply IH].
  destruct (Re.match_here (c :: s)) as [[v' r']|] eqn:E; [|apply IH].
  intros [<-|H]; [exact (match_here_group _ _ _ E)|exact (IH _ _ H)].
Qed.

Lemma db_version_shape dump ver :
  db_version_of dump = Ok ver -> ver <> [] /\ forallb Re.is_verchar ver = true.
Proof.
  unfold db_version_of, index, Re.findall.
  destruct (nth_error (Re.findall_from 0 dump) 0) as [v|] eqn:E; [|discriminate].
  intros H. inversion H; subst. apply nth_error_In in E.
  exact (findall_groups _ _ _ E).
Qed.

Lemma cleanup_events_count_run w id : count is_containers_run (cleanup_events w id) = 0%nat.
Proof. unfold cleanup_events. now destruct (container_stop w id). Qed.

(** X11.  A run starts at most one container, and when it starts one the
    image is [postgres:] followed by the version found in the decoded
    download, a non-empty text of digits and dots; the environment and the
    port mapping are the fixed ones. *)
Theorem container_is_postgres_at_dump_version w argv img env pts :
  In (ContainersRun img env pts) (snd (run w argv)) ->
  (exists token encoded dump ver,
     downloads w argv token encoded /\ decode_dump encoded = Ok dump
     /\ db_version_of dump = Ok ver
     /\ img = py "postgres:" ++ ver
     /\ ver <> [] /\ forallb Re.is_verchar ver = true)
  /\ env = [py "POSTGRES_USER=postgres"; py "POSTGRES_DB=postgres";
            py "POSTGRES_PASSWORD=postgres"]
  /\ pts = [(5432, 5432)%Z]
  /\ count is_containers_run (snd (run w argv)) = 1%nat.
Proof.
  unfold run. intros Hin.
  destruct (main_downloads w argv)
    as [[_ P]|(token & encoded & dump & ver & s & Hd & Hdec & Hv & Hm & P & V)].
  - destruct (main w argv initial) as [o s]. cbn [snd] in *.
    apply (forallb_In _ _ _ P) in Hin. discriminate Hin.
  - rewrite Hm in *. clear Hm.
    assert (P0 : count is_containers_run (trace s) = 0%nat)
      by (apply (count_none is_prelude); [exact P|now intros []]).
    destruct (db_version_shape dump ver Hv) as [Hne Hcl].
    assert (G : forall t,
               ~ In (ContainersRun img env pts) t ->
               count is_containers_run t = 0%nat ->
               In (ContainersRun img env pts)
                  (trace s ++ ContainersRun (image ver) environment ports :: t) ->
               ((exists token encoded dump ver,
                   downloads w argv token encoded /\ decode_dump encoded = Ok dump
                   /\ db_version_of dump = Ok ver
                   /\ img = py "postgres:" ++ ver
                   /\ ver <> [] /\ forallb Re.is_verchar ver = true)
                /\ env = [py "POSTGRES_USER=postgres"; py "POSTGRES_DB=postgres";
                          py "POSTGRES_PASSWORD=postgres"]
                /\ pts = [(5432, 5432)%Z]
                /\ count is_containers_run
                     (trace s ++ ContainersRun (image ver) environment ports :: t)
                   = 1%nat)).
    { intros t Hn Hc H. apply in_app_or in H as [H|[H|H]].
      - apply (forallb_In _ _ _ P) in H. discriminate H.
      - inversion H; subst. split; [|split; [reflexivity|split; [reflexivity|]]].
        + exists token, encoded, dump, ver. auto 10.
        + change (ContainersRun (image ver) environment ports :: t)
            with ([ContainersRun (image ver) environment ports] ++ t).
          rewrite !count_app, P0, Hc. reflexivity.
      - contradiction. }
    destruct (containers_run w (image ver) environment) as [id|e] eqn:Hc.
    + destruct (try_statement_provisioned w token dump ver s id Hc)
        as (o & t & s' & E & Et & Pt).
      rewrite E in *. cbn [snd] in *. rewrite Et in *.
      apply G; [| |exact Hin].
      * intros H. apply in_app_or in H as [H|H].
        -- apply (forallb_In _ _ _ Pt) in H. discriminate H.
        -- exact (cleanup_events_no_run _ _ _ _ _ H).
      * rewrite count_app, cleanup_events_count_run.
        rewrite (count_none is_work); [reflexivity|exact Pt|now intros []].
    + rewrite (try_statement_unprovisioned w token dump ver s e) in *;
        [|now rewrite V|exact Hc|now rewrite V|exact Hc].
      cbn [snd trace] in *. apply G; [intros []|reflexivity|exact Hin].
Qed.

(** The statement above, at a run where every service answers as hoped. *)
Lemma container_is_postgres_at_dump_version_witness :
  (exists token encoded dump ver,
     downloads happy_world sample_argv token encoded
     /\ decode_dump encoded = Ok dump
     /\ db_version_of dump = Ok ver
     /\ image (py "15.3") = py "postgres:" ++ ver
     /\ ver <> [] /\ forallb Re.is_verchar ver = true)
  /\ environment = [py "POSTGRES_USER=postgres"; py "POSTGRES_DB=postgres";
                    py "POSTGRES_PASSWORD=postgres"]
  /\ ports = [(5432, 5432)%Z]
  /\ count is_containers_run (snd (run happy_world sample_argv)) = 1%nat.
Proof.
  apply (container_is_postgres_at_dump_version happy_world sample_argv
           (image (py "15.3")) environment ports).
  vm_compute. repeat (first [left; reflexivity|right]).
Defined.

(** ** A run that ends well *)

Lemma submit_solution_unanswered w token data s e :
  requests_post w (solve_url token) (Json.dumps data) = Err e ->
  fst (submit_solution w token data s) = Raise e [].
Proof.
  intros Hp. destruct s as [t vs]. run_submit. unfold solve_url in Hp.
  rewrite Hp. reflexivity.
Qed.

(** What it takes for the suite after the launch to return. *)
Lemma restore_query_submit_returns w token dump id s s1 :
  restore_query_submit w token dump id s = (Ret tt, s1) ->
  exists input rs results r t,
    Utf8.encode dump = Ok input
    /\ subprocess_run w (restore_args id) input = Ok rs /\ returncode rs = 0%Z
    /\ requests_post w (solve_url token) (Json.dumps results) = Ok r
    /\ status_code r = 200%Z
    /\ trace s1 = trace s ++ t ++ [Print (text r)] /\ vars s1 = vars s.
Proof.
  destruct s as [t0 vs]. unfold restore_query_submit. repeat rewrite bind_run.
  run_restore.
  destruct (Utf8.encode dump) as [input|e] eqn:He;
    cbn -[py app get_db_records submit_solution username db_name];
    [|destruct e; discriminate].
  fold (restore_args id).
  destruct (subprocess_run w (restore_args id) input) as [rs|e] eqn:Hsub;
    cbn -[py app get_db_records submit_solution username db_name];
    [|destruct e; discriminate].
  destruct (returncode rs =? 0)%Z eqn:Hrc;
    cbn -[py app get_db_records submit_solution username db_name]; [|discriminate].
  apply Z.eqb_eq in Hrc.
  match goal with
  | |- context [get_db_records w ?a ?b ?c ?d ?p ?s0] =>
      destruct (get_db_records_emits w is_work a b c d p
                  ltac:(reflexivity)
                  ltac:(intros [] H; try reflexivity; discriminate H) s0)
        as (tq & Eq & _);
      pose proof (keeps_call (A:=pyval) _ s0 : vars (snd (get_db_records w a b c d p s0)) = _) as Kq;
      destruct (get_db_records w a b c d p s0) as [[results|e c0] s2]
  end; [|discriminate].
  cbn [snd trace vars] in Eq, Kq.
  cbn -[py app submit_solution].
  destruct (requests_post w (solve_url token) (Json.dumps results)) as [r|e] eqn:Hp.
  - rewrite (submit_solution_answered w token results _ r Hp).
    destruct (status_code r =? 200)%Z eqn:Hst; [|discriminate].
    apply Z.eqb_eq in Hst. cbn -[py app Json.dumps]. intros H.
    injection H as <-. cbn [trace vars]. rewrite Eq.
    exists input, rs, results, r.
    exists (restore_started id input
            ++ [Log INFO (Text (py "Restored PostgreSQL dump to " ++ id))]
            ++ tq
            ++ [Log INFO (Object results);
                Log INFO (Text (py "Submitting solution to " ++ solve_url token));
                HttpPost (solve_url token) (Json.dumps results)]).
    split; [reflexivity|]. split; [exact Hsub|]. split; [exact Hrc|].
    split; [exact Hp|]. split; [exact Hst|]. split; [|exact Kq].
    unfold restore_started. rewrite <- !app_assoc. reflexivity.
  - pose proof (submit_solution_unanswered w token results
                  {| trace := trace s2 ++ [Log INFO (Object results)];
                     vars := vars s2 |} e Hp) as Hu.
    destruct (submit_solution w token results _) as [[a|e' c'] s3];
      cbn [fst] in Hu; discriminate.
Qed.

Lemma try_finally_returns {A} (body : M A) final s a s2 :
  try_finally body final s = (Ret a, s2) ->
  exists s1 u, body s = (Ret a, s1) /\ final s1 = (Ret u, s2).
Proof.
  unfold try_finally.
  destruct (body s) as [[a'|e c] s1];
    destruct (final s1) as [[u|e' c'] s2'] eqn:Ef; intros H; try discriminate H.
  injection H as <- <-. exists s1, u. split; [reflexivity|exact Ef].
Qed.

Lemma bind_returns {A B} (m : M A) (k : A -> M B) s b s2 :
  bind m k s = (Ret b, s2) ->
  exists a s1, m s = (Ret a, s1) /\ k a s1 = (Ret b, s2).
Proof.
  rewrite bind_run. destruct (m s) as [[a|e c] s1]; [|discriminate].
  intros H. exists a, s1. split; [reflexivity|exact H].
Qed.

Lemma cleanup_returns w s id u s2 :
  lookup "container" (vars s) = Some (ContainerObj id) ->
  cleanup w s = (Ret u, s2) ->
  container_stop w id = Ok tt /\ container_remove w id = Ok tt.
Proof.
  intros H. destruct s as [t vs]. cbn [vars trace] in *.
  unfold cleanup, bind, load_name, ext, emit, lift, logging_info, logging_log.
  cbn -[py app]. repeat (rewrite H; cbn -[py app]).
  destruct (container_stop w id) as [[]|e]; cbn -[py app]; [|discriminate].
  repeat (rewrite H; cbn -[py app]).
  destruct (container_remove w id) as [[]|e]; cbn -[py app]; [auto|discriminate].
Qed.

(** X12.  A run ends without an exception only when everything went
    through: the token was given, a container was started, [psql] ended with
    status 0, the solve endpoint answered 200, and the container was stopped
    and removed.  The last thing recorded before the cleanup is the printed
    response body. *)
Theorem clean_exit_means_submitted_and_removed w argv :
  fst (run w argv) = Ret tt ->
  exists token ver id input rs results r t,
    index argv 1 = Ok token
    /\ containers_run w (image ver) environment = Ok id
    /\ subprocess_run w (restore_args id) input = Ok rs /\ returncode rs = 0%Z
    /\ requests_post w (solve_url token) (Json.dumps results) = Ok r
    /\ status_code r = 200%Z
    /\ container_stop w id = Ok tt /\ container_remove w id = Ok tt
    /\ snd (run w argv)
       = t ++ Print (text r) :: stop_events id ++ remove_events id.
Proof.
  unfold run.
  destruct (main_downloads w argv)
    as [[(e & c & R) _]|(token & encoded & dump & ver & s & Hd & _ & _ & Hm & _ & V)];
    destruct (main w argv initial) as [o s2]; cbn [fst snd] in *; intros H.
  { rewrite R in H. discriminate H. }
  subst o. symmetry in Hm.
  apply try_finally_returns in Hm as (s1 & u & Hb & Hf).
  unfold provision_restore_query_submit in Hb.
  apply bind_returns in Hb as (id & s' & Hx & Hb).
  pose proof (ext_returns _ _ _ _ _ Hx) as Hc.
  unfold ext, bind, emit, lift in Hx. rewrite Hc in Hx. injection Hx as <-.
  apply bind_returns in Hb as ([] & s'' & Hst & Hb).
  unfold store in Hst. injection Hst as <-. cbn [trace vars] in Hb.
  apply restore_query_submit_returns in Hb
    as (input & rs & results & r & t & _ & Hsub & Hrc & Hp & Hs & Et & Ev).
  cbn [trace vars] in Et, Ev.
  assert (L : lookup "container" (vars s1) = Some (ContainerObj id))
    by now rewrite Ev.
  destruct (cleanup_returns w s1 id u s2 L Hf) as [Hstop Hrem].
  rewrite (cleanup_done w s1 id L Hstop Hrem) in Hf.
  assert (E2 : s2 = {| trace := trace s1 ++ stop_events id ++ remove_events id;
                       vars := vars s1 |}) by congruence.
  clear Hf. subst s2.
  exists token, ver, id, input, rs, results, r.
  exists (trace s ++ ContainersRun (image ver) environment ports :: t).
  destruct Hd as [Ha _].
  repeat (split; [assumption|]).
  cbn [trace]. rewrite Et, <- !app_assoc. reflexivity.
Qed.

(** The statement above, at a run where every service answers as hoped. *)
Lemma clean_exit_means_submitted_and_removed_witness :
  exists token ver id input rs results r t,
    index sample_argv 1 = Ok token
    /\ containers_run happy_world (image ver) environment = Ok id
    /\ subprocess_run happy_world (restore_args id) input = Ok rs
    /\ returncode rs = 0%Z
    /\ requests_post happy_world (solve_url token) (Json.dumps results) = Ok r
    /\ status_code r = 200%Z
    /\ container_stop happy_world id = Ok tt
    /\ container_remove happy_world id = Ok tt
    /\ snd (run happy_world sample_argv)
       = t ++ Print (text r) :: stop_events id ++ remove_events id.
Proof.
  apply (clean_exit_means_submitted_and_removed happy_world sample_argv).
  vm_compute. reflexivity.
Defined.
